(** * IriRouter: adapter binding and request authentication

    A shallow embedding of [app/routers/iri_router.py]: the client-address
    helper [get_real_ip], the adapter binder [IriRouter.create_adapter]
    (run from [IriRouter.__init__]) and the per-request authenticator
    [IriRouter.current_user].

    Python objects the module only passes through (the process environment,
    the import system, FastAPI's request object) are modelled by the small
    part of their behaviour the module relies on:
    - [os.environ] is a finite map from names to values (POSIX: names are
      case-sensitive);
    - the import system is a table of loaded modules, each a finite map from
      attribute names to objects;
    - a request carries its raw header list, its optional peer address and
      its [state] namespace, a finite map from attribute names to values.
    A Python [str] is the string of the bytes of its UTF-8 encoding, so
    that a character outside ASCII takes two to four bytes.
    Calls to [logging] do not influence control flow or any of the state
    below and are left out. *)

From Stdlib Require Import ZArith Ascii String List Bool Lia.
From stdpp Require Import base option strings list gmap.

Local Open Scope string_scope.

(** ** Python values, exceptions and outcomes *)

(** The values an adapter can hand back as a user id.  The contract says
    [str]; Python does not enforce it, and [current_user] only tests the
    value's truthiness. *)
Inductive PyVal : Type :=
| VNone
| VStr (s : string)
| VInt (z : Z)
| VBool (b : bool).

(** Truth value testing, as [not user_id] does it. *)
Definition truthy (v : PyVal) : bool :=
  match v with
  | VNone => false
  | VStr s => negb (String.eqb s EmptyString)
  | VInt z => negb (Z.eqb z 0)
  | VBool b => b
  end.

(** Exceptions, by class.  Every constructor but [NonException] is a class
    deriving from [Exception]; [NonException] stands for the classes that
    derive from [BaseException] only ([asyncio.CancelledError],
    [KeyboardInterrupt], [SystemExit], [GeneratorExit]).  The exceptions
    the module raises itself carry their exact text.  For those the
    interpreter raises the argument is a short form of the interpreter's
    message, and [ModuleNotFoundError] carries the module path whose
    import was asked for. *)
Inductive PyExc : Type :=
| HTTPException (status_code : Z) (detail : string)
| PlainException (msg : string)
| AttributeError (msg : string)
| ModuleNotFoundError (name : string)
| ValueError (msg : string)
| TypeError (msg : string)
| IndexError (msg : string)
| AssertionError (msg : string)
| OtherException (cls : string) (msg : string)
| NonException (cls : string).

(** [isinstance(e, Exception)]: what an [except Exception] clause catches. *)
Definition isinstance_Exception (e : PyExc) : bool :=
  match e with
  | NonException _ => false
  | _ => true
  end.

(** The result of evaluating a Python expression or running a statement
    list: it returns a value or raises. *)
Inductive outcome (A : Type) : Type :=
| Return (a : A)
| Raise (e : PyExc).
Arguments Return {A} a.
Arguments Raise {A} e.

Global Instance outcome_ret : MRet outcome := fun A a => Return a.
Global Instance outcome_bind : MBind outcome := fun A B f m =>
  match m with
  | Return a => f a
  | Raise e => Raise e
  end.

(** [try: x = body  except Exception: pass], with [x] preset to [dflt]:
    an exception of a class deriving from [Exception] is swallowed, any
    other one propagates. *)
Definition try_except_Exception {A : Type} (dflt : A) (body : outcome A)
  : outcome A :=
  match body with
  | Return a => Return a
  | Raise e => if isinstance_Exception e then Return dflt else Raise e
  end.

(** ** The string methods the module calls *)

(** [str.isspace] on one character, given by its code point: the
    characters [str.strip()] removes.  These are the ASCII controls
    U+0009 to U+000D and U+001C to U+001F, the space, U+0085, U+00A0,
    U+1680, U+2000 to U+200A, U+2028, U+2029, U+202F, U+205F and U+3000. *)
Definition py_isspace (cp : N) : bool :=
  (((9 <=? cp) && (cp <=? 13)) || ((28 <=? cp) && (cp <=? 32))
   || (cp =? 133) || (cp =? 160) || (cp =? 5760)
   || ((8192 <=? cp) && (cp <=? 8202))
   || (cp =? 8232) || (cp =? 8233) || (cp =? 8239) || (cp =? 8287)
   || (cp =? 12288))%N.

(** A continuation byte of a UTF-8 sequence. *)
Definition utf8_cont (b : ascii) : bool :=
  ((128 <=? N_of_ascii b) && (N_of_ascii b <=? 191))%N.

(** The byte [a] alone encodes a whitespace character. *)
Definition is_ws1 (a : ascii) : bool :=
  ((N_of_ascii a <? 128) && py_isspace (N_of_ascii a))%N.

(** The bytes [a b] encode a whitespace character. *)
Definition is_ws2 (a b : ascii) : bool :=
  ((194 <=? N_of_ascii a) && (N_of_ascii a <=? 223) && utf8_cont b
   && py_isspace ((N_of_ascii a - 192) * 64 + (N_of_ascii b - 128)))%N.

(** The bytes [a b c] encode a whitespace character. *)
Definition is_ws3 (a b c : ascii) : bool :=
  ((224 <=? N_of_ascii a) && (N_of_ascii a <=? 239)
   && utf8_cont b && utf8_cont c
   && (2048 <=? (N_of_ascii a - 224) * 4096 + (N_of_ascii b - 128) * 64
                + (N_of_ascii c - 128))
   && py_isspace ((N_of_ascii a - 224) * 4096 + (N_of_ascii b - 128) * 64
                  + (N_of_ascii c - 128)))%N.

(** The number of bytes of the whitespace character [s] begins with, or
    0 when it begins with none.  No whitespace character takes four
    bytes. *)
Definition ws_width (s : string) : nat :=
  match s with
  | String a t =>
      if is_ws1 a then 1
      else match t with
           | String b u =>
               if is_ws2 a b then 2
               else match u with
                    | String c _ => if is_ws3 a b c then 3 else 0
                    | EmptyString => 0
                    end
           | EmptyString => 0
           end
  | EmptyString => 0
  end.

(** [s] is the encoding of exactly one whitespace character. *)
Definition is_ws_char (s : string) : bool :=
  match s with
  | String a EmptyString => is_ws1 a
  | String a (String b EmptyString) => is_ws2 a b
  | String a (String b (String c EmptyString)) => is_ws3 a b c
  | _ => false
  end.

(** [str.lower] on one character, for the ASCII range. *)
Definition ascii_lower (c : ascii) : ascii :=
  let n := N_of_ascii c in
  if ((65 <=? n) && (n <=? 90))%N then ascii_of_N (n + 32) else c.

(** [s.lower()]. *)
Fixpoint py_lower (s : string) : string :=
  match s with
  | EmptyString => EmptyString
  | String c t => String (ascii_lower c) (py_lower t)
  end.

(** [s.replace(c, empty)] for a one-character [c] and the empty
    replacement: every occurrence goes. *)
Fixpoint py_remove_char (c : ascii) (s : string) : string :=
  match s with
  | EmptyString => EmptyString
  | String d t =>
      if Ascii.eqb d c then py_remove_char c t
      else String d (py_remove_char c t)
  end.

(** [s.lstrip()]: whitespace characters are dropped from the front, one
    character (one to three bytes) at a time. *)
Fixpoint py_lstrip (s : string) : string :=
  match s with
  | EmptyString => EmptyString
  | String a t =>
      if is_ws1 a then py_lstrip t
      else match t with
           | String b u =>
               if is_ws2 a b then py_lstrip u
               else match u with
                    | String c v => if is_ws3 a b c then py_lstrip v else s
                    | EmptyString => s
                    end
           | EmptyString => s
           end
  end.

(** [s.rstrip()]: working from the end, what is left of [s] from a
    position on is dropped when it is a single whitespace character. *)
Fixpoint py_rstrip (s : string) : string :=
  match s with
  | EmptyString => EmptyString
  | String c t =>
      let r := String c (py_rstrip t) in
      if is_ws_char r then EmptyString else r
  end.

(** [s.strip()]. *)
Definition py_strip (s : string) : string := py_rstrip (py_lstrip s).

(** The cut at the last occurrence of [sep] in [s], when there is one. *)
Fixpoint rcut (sep : ascii) (s : string) : option (string * string) :=
  match s with
  | EmptyString => None
  | String c t =>
      match rcut sep t with
      | Some (a, b) => Some (String c a, b)
      | None => if Ascii.eqb c sep then Some (EmptyString, t) else None
      end
  end.

(** [s.rsplit(sep, 1)] for a one-character [sep]. *)
Definition py_rsplit1 (sep : ascii) (s : string) : list string :=
  match rcut sep s with
  | Some (a, b) => [a; b]
  | None => [s]
  end.

(** [v in xs] on a list of strings, for a value that may be [None]. *)
Definition py_in (v : option string) (xs : list string) : bool :=
  match v with
  | None => false
  | Some s => existsb (String.eqb s) xs
  end.

(** [s.startswith(c)] and [s.endswith(c)] for a one-character [c]. *)
Definition py_startswith (c : ascii) (s : string) : bool :=
  match s with
  | EmptyString => false
  | String d _ => Ascii.eqb d c
  end.

Fixpoint py_endswith (c : ascii) (s : string) : bool :=
  match s with
  | EmptyString => false
  | String d EmptyString => Ascii.eqb d c
  | String _ t => py_endswith c t
  end.

(** [xs[i]] on a list. *)
Definition py_index (xs : list string) (i : nat) : outcome string :=
  match xs !! i with
  | Some x => Return x
  | None => Raise (IndexError "list index out of range")
  end.

(** ** Requests *)

(** [request.client]: the peer's address. *)
Record Address : Type := mkAddress { host : string; port : Z }.

(** The part of a FastAPI [Request] the module reads and writes.
    [headers] is the raw header list of the connection, names as the server
    stored them (ASGI servers store them lower-cased); [client] is [None]
    when the server gave no peer address; [state] is the attribute
    namespace of [request.state]. *)
Record Request : Type := mkRequest {
  headers : list (string * string);
  client : option Address;
  state : gmap string PyVal
}.

(** [request.headers.get(key)]: the lookup lower-cases [key] and returns
    the value of the first stored header with that name, or [None]. *)
Fixpoint headers_get (key : string) (hs : list (string * string))
  : option string :=
  match hs with
  | [] => None
  | (k, v) :: rest =>
      if String.eqb k (py_lower key) then Some v else headers_get key rest
  end.

(** [not ip_addr] for a value that is a string or [None]. *)
Definition falsy_str (o : option string) : bool :=
  match o with
  | None => true
  | Some s => String.eqb s EmptyString
  end.

(** [request.client.host]; the attribute access fails on [None]. *)
Definition client_host (request : Request) : outcome (option string) :=
  match client request with
  | Some a => Return (Some (host a))
  | None => Raise (AttributeError "'NoneType' object has no attribute 'host'")
  end.

(** [get_real_ip]. *)
Definition get_real_ip (request : Request) : outcome (option string) :=
  let ip_addr := headers_get "HTTP_X_REAL_IP" (headers request) in
  if falsy_str ip_addr then
    let ip_addr := headers_get "x-real-ip" (headers request) in
    if falsy_str ip_addr then client_host request
    else Return ip_addr
  else Return ip_addr.

(** [request.state.name = v]. *)
Definition set_state (name : string) (v : PyVal) (request : Request)
  : Request :=
  mkRequest (headers request) (client request) (<[name := v]> (state request)).

(** ** Adapters, classes and the import system *)

(** An adapter instance, seen through the one operation the router calls:
    [await adapter.get_current_user(api_key, ip_address)]. *)
Record Adapter : Type := mkAdapter {
  get_current_user : string -> option string -> outcome PyVal
}.

(** A class object: its qualified name; the names of the classes it
    counts as a subclass of, that is itself, its bases, and the abstract
    base classes it is registered with; the abstract methods it leaves
    without an implementation; and what its initialiser does with
    positional arguments. *)
Record PyClass : Type := mkClass {
  cls_name : string;
  cls_subclass_of : list string;
  cls_abstractmethods : list string;
  cls_init : list PyVal -> outcome Adapter
}.

(** What a module attribute, or the [router_adapter] argument, can be: a
    class, a plain value, or a tuple of such objects.  A union of classes
    behaves in [issubclass] as the tuple of its members and is written as
    one. *)
#[warnings="-register-all"]
Inductive PyObj : Type :=
| OClass (c : PyClass)
| OValue (v : PyVal)
| OTuple (items : list PyObj).

(** [issubclass(a, b)].  Against a class the answer is read off the
    classes [a] counts as a subclass of.  Against a tuple the items are
    tried from left to right, stopping at the first that says yes; an
    empty tuple says no without looking at [a].  A first argument that is
    not a class, or a second one that is neither a class nor a tuple, is a
    [TypeError]. *)
Fixpoint issubclass (a b : PyObj) {struct b} : outcome bool :=
  match b with
  | OClass d =>
      match a with
      | OClass c =>
          Return (existsb (String.eqb (cls_name d)) (cls_subclass_of c))
      | _ => Raise (TypeError "issubclass() arg 1 must be a class")
      end
  | OValue _ =>
      match a with
      | OClass _ =>
          Raise (TypeError "issubclass() arg 2 must be a class, a tuple of classes, or a union")
      | _ => Raise (TypeError "issubclass() arg 1 must be a class")
      end
  | OTuple items =>
      (fix any (xs : list PyObj) : outcome bool :=
         match xs with
         | [] => Return false
         | x :: rest =>
             match issubclass a x with
             | Return true => Return true
             | Return false => any rest
             | Raise e => Raise e
             end
         end) items
  end.

(** The classes and plain values a contract holds, tuples opened up, from
    left to right. *)
Fixpoint contract_leaves (b : PyObj) : list PyObj :=
  match b with
  | OTuple items =>
      (fix go (xs : list PyObj) : list PyObj :=
         match xs with
         | [] => []
         | x :: rest => (contract_leaves x ++ go rest)%list
         end) items
  | _ => [b]
  end.

(** Induction over objects, tuples opened up. *)
Fixpoint PyObj_tuple_ind (P : PyObj -> Prop)
    (Hc : forall c, P (OClass c)) (Hv : forall v, P (OValue v))
    (Ht : forall items, Forall P items -> P (OTuple items))
    (o : PyObj) : P o :=
  match o with
  | OClass c => Hc c
  | OValue v => Hv v
  | OTuple items =>
      Ht items
        ((fix all (xs : list PyObj) : Forall P xs :=
            match xs with
            | [] => @List.Forall_nil _ P
            | x :: rest =>
                @List.Forall_cons _ P x rest
                  (PyObj_tuple_ind P Hc Hv Ht x) (all rest)
            end) items)
  end.

(** The contract holds at least one class. *)
Definition holds_class (b : PyObj) : bool :=
  existsb (fun o => match o with OClass _ => true | _ => false end)
    (contract_leaves b).

(** Calling [o] with the positional arguments [args]. *)
Definition py_call (o : PyObj) (args : list PyVal) : outcome Adapter :=
  match o with
  | OClass c =>
      match cls_abstractmethods c with
      | [] => cls_init c args
      | _ :: _ => Raise (TypeError "Can't instantiate abstract class")
      end
  | _ => Raise (TypeError "object is not callable")
  end.

(** [class AuthenticatedAdapter(ABC)]: both operations are abstract, with
    bodies that do nothing. *)
Definition AuthenticatedAdapter : PyClass :=
  mkClass "app.routers.iri_router.AuthenticatedAdapter"
    ["app.routers.iri_router.AuthenticatedAdapter"; "abc.ABC"; "object"]
    ["get_current_user"; "get_user"]
    (fun _ => Return (mkAdapter (fun _ _ => Return VNone))).

(** [importlib.import_module(name)] against the table of importable
    modules, keyed by full dotted path (a path is in the table when it
    and its parent packages can be imported): a relative name needs a
    package, an empty name is refused, and for a path missing from the
    table the import fails with [ModuleNotFoundError], recorded with the
    path that was asked for. *)
Definition import_module (mods : gmap string (gmap string PyObj))
    (name : string) : outcome (gmap string PyObj) :=
  if py_startswith "." name then
    Raise (TypeError "the 'package' argument is required to perform a relative import")
  else if String.eqb name EmptyString then
    Raise (ValueError "Empty module name")
  else
    match mods !! name with
    | Some m => Return m
    | None => Raise (ModuleNotFoundError name)
    end.

(** [getattr(module, name)]. *)
Definition module_getattr (m : gmap string PyObj) (name : string)
  : outcome PyObj :=
  match m !! name with
  | Some o => Return o
  | None => Raise (AttributeError ("module has no attribute '" +:+ name +:+ "'"))
  end.

(** ** The router *)

(** The attributes of an [IriRouter] the module touches.  [adapter] is
    [None] as long as the attribute has not been assigned. *)
Record IriRouter : Type := mkRouter {
  prefix : string;
  include_in_schema : bool;
  adapter : option Adapter
}.

Definition set_include_in_schema (b : bool) (self : IriRouter) : IriRouter :=
  mkRouter (prefix self) b (adapter self).

Definition set_adapter (a : Adapter) (self : IriRouter) : IriRouter :=
  mkRouter (prefix self) (include_in_schema self) (Some a).

(** [router_name]: the prefix with every ["/"] removed, then [strip()]. *)
Definition router_name (self : IriRouter) : string :=
  py_strip (py_remove_char "/" (prefix self)).

(** [env_var = f"IRI_API_ADAPTER_{router_name}"]. *)
Definition env_var (self : IriRouter) : string :=
  "IRI_API_ADAPTER_" +:+ router_name self.

(** [name in os.environ]. *)
Definition env_has (environ : gmap string string) (name : string) : bool :=
  match environ !! name with
  | Some _ => true
  | None => false
  end.

(** [os.environ.get("IRI_SHOW_MISSING_ROUTES") in ["true", "1", "on", "yes"]]. *)
Definition show_missing_routes (environ : gmap string string) : bool :=
  py_in (environ !! "IRI_SHOW_MISSING_ROUTES") ["true"; "1"; "on"; "yes"].

(** The second half of [create_adapter]: find and load the implementation
    named [adapter_name], check it against [router_adapter] and build the
    instance. *)
Definition load_adapter (mods : gmap string (gmap string PyObj))
    (adapter_name : string) (router_adapter : PyObj) : outcome Adapter :=
  let parts := py_rsplit1 "." adapter_name in
  p0 ← py_index parts 0;
  module ← import_module mods p0;
  p1 ← py_index parts 1;
  AdapterClass ← module_getattr module p1;
  sub ← issubclass AdapterClass router_adapter;
  if negb sub then
    Raise (PlainException (adapter_name +:+ " should implement FacilityAdapter"))
  else py_call AdapterClass [].

(** [IriRouter.create_adapter].  The result pairs the router as the call
    leaves it with the call's outcome. *)
Definition create_adapter (environ : gmap string string)
    (mods : gmap string (gmap string PyObj))
    (self : IriRouter) (router_adapter : PyObj) : IriRouter * outcome unit :=
  if negb (env_has environ (env_var self)) && negb (show_missing_routes environ)
  then (set_include_in_schema false self, Return tt)
  else
    let adapter_name :=
      default "app.demo_adapter.DemoAdapter" (environ !! env_var self) in
    match load_adapter mods adapter_name router_adapter with
    | Return inst => (set_adapter inst self, Return tt)
    | Raise e => (self, Raise e)
    end.

(** The keyword arguments [IriRouter] is built with that matter here. *)
Record Kwargs : Type := mkKwargs {
  kw_prefix : string;
  kw_include_in_schema : bool
}.

(** The call of the base initialiser with the keyword arguments:
    FastAPI's [APIRouter] checks a non-empty prefix and stores the
    arguments. *)
Definition APIRouter_init (kw : Kwargs) : outcome IriRouter :=
  if negb (String.eqb (kw_prefix kw) EmptyString)
     && negb (py_startswith "/" (kw_prefix kw)) then
    Raise (AssertionError "A path prefix must start with '/'")
  else if negb (String.eqb (kw_prefix kw) EmptyString)
          && py_endswith "/" (kw_prefix kw) then
    Raise (AssertionError "A path prefix must not end with '/', as the routes will start with '/'")
  else Return (mkRouter (kw_prefix kw) (kw_include_in_schema kw) None).

(** [IriRouter.__init__]: [Return] gives the constructed router, [Raise]
    means no router object comes into being. *)
Definition IriRouter_init (environ : gmap string string)
    (mods : gmap string (gmap string PyObj))
    (router_adapter : PyObj) (kw : Kwargs) : outcome IriRouter :=
  self ← APIRouter_init kw;
  let '(self', r) := create_adapter environ mods self router_adapter in
  _ ← r; Return self'.

(** The body of the [try] block of [current_user]:
    [await self.adapter.get_current_user(api_key, get_real_ip(request))]. *)
Definition resolve_user (self : IriRouter) (request : Request)
    (api_key : string) : outcome PyVal :=
  match adapter self with
  | None => Raise (AttributeError "'IriRouter' object has no attribute 'adapter'")
  | Some a =>
      ip ← get_real_ip request;
      get_current_user a api_key ip
  end.

(** [IriRouter.current_user].  The result pairs the request as the call
    leaves it with the call's outcome. *)
Definition current_user (self : IriRouter) (request : Request)
    (api_key : string) : Request * outcome unit :=
  match try_except_Exception VNone (resolve_user self request api_key) with
  | Raise e => (request, Raise e)
  | Return user_id =>
      if negb (truthy user_id) then
        (request, Raise (HTTPException 403 "Unauthorized access"))
      else
        (set_state "api_key" (VStr api_key)
           (set_state "current_user_id" user_id request),
         Return tt)
  end.

(** ** Logging *)

(** The records the module hands to the root logger, in order. *)
Inductive LogLevel : Type := INFO | ERROR.

(** The first half of [load_adapter], up to and including the subclass
    check: what [create_adapter] does between choosing the locator and
    logging the success line. *)
Definition load_class (mods : gmap string (gmap string PyObj))
    (adapter_name : string) (router_adapter : PyObj) : outcome PyObj :=
  let parts := py_rsplit1 "." adapter_name in
  p0 ← py_index parts 0;
  module ← import_module mods p0;
  p1 ← py_index parts 1;
  AdapterClass ← module_getattr module p1;
  sub ← issubclass AdapterClass router_adapter;
  if negb sub then
    Raise (PlainException (adapter_name +:+ " should implement FacilityAdapter"))
  else Return AdapterClass.

(** [IriRouter.create_adapter] with the [logging] calls kept: the records
    logged, then the router and the outcome as [create_adapter] gives
    them.  The success line is logged before the class is called. *)
Definition create_adapter_logged (environ : gmap string string)
    (mods : gmap string (gmap string PyObj))
    (self : IriRouter) (router_adapter : PyObj)
  : list (LogLevel * string) * (IriRouter * outcome unit) :=
  let log1 := [(INFO, "Loading adapter from " +:+ env_var self)] in
  if negb (env_has environ (env_var self)) && negb (show_missing_routes environ)
  then
    ((log1 ++ [(INFO, "Hiding route: " +:+ router_name self)])%list,
     (set_include_in_schema false self, Return tt))
  else
    let adapter_name :=
      default "app.demo_adapter.DemoAdapter" (environ !! env_var self) in
    let log2 :=
      (log1 ++ [(INFO, "Using " +:+ router_name self +:+ " adapter: "
                         +:+ adapter_name)])%list in
    match load_class mods adapter_name router_adapter with
    | Raise e => (log2, (self, Raise e))
    | Return AdapterClass =>
        let log3 :=
          (log2 ++ [(INFO, String (ascii_of_nat 9)
                             ("Successfully loaded " +:+ router_name self
                                +:+ " adapter."))])%list in
        match py_call AdapterClass [] with
        | Return inst => (log3, (set_adapter inst self, Return tt))
        | Raise e => (log3, (self, Raise e))
        end
    end.

(** [IriRouter.current_user] with the [logging] call kept.  [exc_str] is
    [str(exc)], the text of the caught exception. *)
Definition current_user_logged (exc_str : PyExc -> string)
    (self : IriRouter) (request : Request) (api_key : string)
  : list (LogLevel * string) * (Request * outcome unit) :=
  let '(log, r) :=
    match resolve_user self request api_key with
    | Return v => ([], Return v)
    | Raise exc =>
        if isinstance_Exception exc then
          ([(ERROR, "Error parsing IRI_API_PARAMS: " +:+ exc_str exc)],
           Return VNone)
        else ([], Raise exc)
    end in
  match r with
  | Raise e => (log, (request, Raise e))
  | Return user_id =>
      if negb (truthy user_id) then
        (log, (request, Raise (HTTPException 403 "Unauthorized access")))
      else
        (log,
         (set_state "api_key" (VStr api_key)
            (set_state "current_user_id" user_id request),
          Return tt))
  end.

(** ** Sample objects *)

Module Samples.

(** An adapter that accepts the key [good] for the user [alice] and
    answers with the empty string otherwise. *)
Definition demo_adapter : Adapter :=
  mkAdapter (fun api_key _ =>
    if String.eqb api_key "good" then Return (VStr "alice")
    else Return (VStr EmptyString)).

(** An adapter whose backend is down. *)
Definition failing_adapter : Adapter :=
  mkAdapter (fun _ _ => Raise (OtherException "ConnectionError" "backend down")).

(** An adapter whose call is cancelled while it is suspended. *)
Definition cancelled_adapter : Adapter :=
  mkAdapter (fun _ _ => Raise (NonException "asyncio.CancelledError")).

Definition DemoAdapter : PyClass :=
  mkClass "app.demo_adapter.DemoAdapter"
    ["app.demo_adapter.DemoAdapter"; "app.routers.status.facility_adapter.FacilityAdapter";
     "app.routers.iri_router.AuthenticatedAdapter"; "abc.ABC"; "object"]
    []
    (fun _ => Return demo_adapter).

Definition FacilityAdapter : PyClass :=
  mkClass "app.routers.status.facility_adapter.FacilityAdapter"
    ["app.routers.status.facility_adapter.FacilityAdapter";
     "app.routers.iri_router.AuthenticatedAdapter"; "abc.ABC"; "object"]
    ["get_current_user"; "get_user"]
    (fun _ => Return (mkAdapter (fun _ _ => Return VNone))).

(** A class that has nothing to do with the contract. *)
Definition Unrelated : PyClass :=
  mkClass "vendor.tools.Unrelated" ["vendor.tools.Unrelated"; "object"]
    []
    (fun _ => Return failing_adapter).


Definition tools_module : gmap string PyObj :=
  {[ "Unrelated" := OClass Unrelated; "VERSION" := OValue (VStr "1.0") ]}.

Definition demo_module : gmap string PyObj :=
  {[ "DemoAdapter" := OClass DemoAdapter ]}.

Definition router_module : gmap string PyObj :=
  {[ "AuthenticatedAdapter" := OClass AuthenticatedAdapter ]}.

Definition modules : gmap string (gmap string PyObj) :=
  {[ "app.demo_adapter" := demo_module;
     "app.routers.iri_router" := router_module;
     "vendor.tools" := tools_module ]}.

Definition env_show : gmap string string :=
  {[ "IRI_SHOW_MISSING_ROUTES" := "1" ]}.

Definition env_unrelated : gmap string string :=
  {[ "IRI_API_ADAPTER_status" := "vendor.tools.Unrelated" ]}.

(** A class that derives from the contract and forgot one of the two
    operations. *)
Definition HalfAdapter : PyClass :=
  mkClass "vendor.half.HalfAdapter"
    ["vendor.half.HalfAdapter";
     "app.routers.iri_router.AuthenticatedAdapter"; "abc.ABC"; "object"]
    ["get_user"]
    (fun _ => Return demo_adapter).

Definition half_modules : gmap string (gmap string PyObj) :=
  {[ "vendor.half" := {[ "HalfAdapter" := OClass HalfAdapter ]} ]}.

Definition env_half : gmap string string :=
  {[ "IRI_API_ADAPTER_status" := "vendor.half.HalfAdapter" ]}.

Definition env_no_module : gmap string string :=
  {[ "IRI_API_ADAPTER_status" := "vendor.nope.Missing" ]}.

Definition env_no_symbol : gmap string string :=
  {[ "IRI_API_ADAPTER_status" := "vendor.tools.Missing" ]}.

Definition status_kwargs : Kwargs := mkKwargs "/status" true.

Definition status_router : IriRouter := mkRouter "/status" true None.

Definition peer : Address := mkAddress "10.0.0.7" 51234.

Definition bare_request : Request := mkRequest [] (Some peer) ∅.

Definition proxied_request : Request :=
  mkRequest [("host", "api.example.org"); ("x-real-ip", "9.9.9.9")]
    (Some peer) ∅.

End Samples.

Module MoreSamples.

(** A concrete adapter class that forgot one of the two operations. *)
Definition HalfAdapter : PyClass :=
  mkClass "vendor.half.HalfAdapter"
    ["vendor.half.HalfAdapter"; "app.routers.status.facility_adapter.FacilityAdapter";
     "app.routers.iri_router.AuthenticatedAdapter"; "abc.ABC"; "object"]
    ["get_user"]
    (fun _ => Return Samples.demo_adapter).

Definition half_module : gmap string PyObj :=
  {[ "HalfAdapter" := OClass HalfAdapter ]}.

Definition modules : gmap string (gmap string PyObj) :=
  {[ "app.demo_adapter" := Samples.demo_module;
     "vendor.half" := half_module;
     "vendor.tools" := Samples.tools_module;
     "toplevel" := Samples.tools_module ]}.

Definition env_demo : gmap string string :=
  {[ "IRI_API_ADAPTER_status" := "app.demo_adapter.DemoAdapter" ]}.

Definition env_demo_flag_off : gmap string string :=
  {[ "IRI_API_ADAPTER_status" := "app.demo_adapter.DemoAdapter";
     "IRI_SHOW_MISSING_ROUTES" := "false" ]}.

Definition env_half : gmap string string :=
  {[ "IRI_API_ADAPTER_status" := "vendor.half.HalfAdapter" ]}.

Definition env_constant : gmap string string :=
  {[ "IRI_API_ADAPTER_status" := "vendor.tools.VERSION" ]}.

Definition env_dotless : gmap string string :=
  {[ "IRI_API_ADAPTER_status" := "toplevel" ]}.

Definition env_empty_entry : gmap string string :=
  {[ "IRI_API_ADAPTER_status" := EmptyString ]}.

(** A request that reached the application without a peer address. *)
Definition peerless_request : Request := mkRequest [] None ∅.

(** [str(exc)] for the sample exceptions. *)
Definition sample_exc_str (e : PyExc) : string :=
  match e with
  | HTTPException code detail => detail
  | PlainException msg | AttributeError msg | ValueError msg | TypeError msg
  | IndexError msg | AssertionError msg | OtherException _ msg => msg
  | ModuleNotFoundError name => "No module named '" +:+ name +:+ "'"
  | NonException _ => EmptyString
  end.

End MoreSamples.

(** ** Facts about the string methods *)

(** Every character of [s] passes the test [p]. *)
Fixpoint str_forallb (p : ascii -> bool) (s : string) : bool :=
  match s with
  | EmptyString => true
  | String c t => p c && str_forallb p t
  end.

(** [c] does not occur in [s]. *)
Definition free_of (c : ascii) (s : string) : bool :=
  str_forallb (fun d => negb (Ascii.eqb d c)) s.

(** [s] holds no whitespace: at no position does the encoding of a
    whitespace character begin. *)
Fixpoint space_free (s : string) : bool :=
  match s with
  | EmptyString => true
  | String _ t => Nat.eqb (ws_width s) 0 && space_free t
  end.

Lemma rcut_free_of (sep : ascii) (s : string) :
  free_of sep s = true -> rcut sep s = None.
Proof.
  unfold free_of. induction s as [|c t IH]; simpl; [reflexivity|].
  intros H. apply andb_prop in H as [Hc Ht].
  rewrite (IH Ht). apply negb_true_iff in Hc. now rewrite Hc.
Qed.

Lemma rcut_append (sep : ascii) (m s : string) :
  free_of sep s = true -> rcut sep (m +:+ String sep s) = Some (m, s).
Proof.
  intros Hs. induction m as [|c t IH]; simpl.
  - rewrite (rcut_free_of _ _ Hs). now rewrite Ascii.eqb_refl.
  - now rewrite IH.
Qed.

Lemma py_rsplit1_append (sep : ascii) (m s : string) :
  free_of sep s = true -> py_rsplit1 sep (m +:+ String sep s) = [m; s].
Proof. intros Hs. unfold py_rsplit1. now rewrite rcut_append. Qed.

Lemma py_remove_char_free_of (c : ascii) (s : string) :
  free_of c s = true -> py_remove_char c s = s.
Proof.
  unfold free_of. induction s as [|d t IH]; simpl; [reflexivity|].
  intros H. apply andb_prop in H as [Hd Ht].
  apply negb_true_iff in Hd. rewrite Hd. now rewrite (IH Ht).
Qed.

(** A string that begins with no whitespace character is left alone by
    [lstrip]. *)
Lemma py_lstrip_ws_width (s : string) :
  ws_width s = 0 -> py_lstrip s = s.
Proof.
  destruct s as [|a [|b [|c v]]]; simpl; try reflexivity.
  - destruct (is_ws1 a); [discriminate | reflexivity].
  - destruct (is_ws1 a); [discriminate|].
    destruct (is_ws2 a b); [discriminate | reflexivity].
  - destruct (is_ws1 a); [discriminate|].
    destruct (is_ws2 a b); [discriminate|].
    destruct (is_ws3 a b c); [discriminate | reflexivity].
Qed.

(** A single whitespace character begins with one. *)
Lemma is_ws_char_ws_width (s : string) :
  is_ws_char s = true -> ws_width s <> 0.
Proof.
  destruct s as [|a [|b [|c [|d v]]]]; simpl; try discriminate.
  - intros ->. discriminate.
  - intros ->. destruct (is_ws1 a); discriminate.
  - intros ->. destruct (is_ws1 a); [discriminate|].
    destruct (is_ws2 a b); discriminate.
Qed.

Lemma space_free_head (s : string) :
  space_free s = true -> ws_width s = 0.
Proof.
  destruct s as [|a t]; [reflexivity|]. simpl space_free.
  intros H. apply andb_prop in H as [H _]. now apply Nat.eqb_eq in H.
Qed.

Lemma py_lstrip_space_free (s : string) :
  space_free s = true -> py_lstrip s = s.
Proof. intros H. now apply py_lstrip_ws_width, space_free_head. Qed.

Lemma py_rstrip_cons (c : ascii) (t : string) :
  py_rstrip (String c t) =
    if is_ws_char (String c (py_rstrip t)) then EmptyString
    else String c (py_rstrip t).
Proof. reflexivity. Qed.

Lemma py_rstrip_space_free (s : string) :
  space_free s = true -> py_rstrip s = s.
Proof.
  induction s as [|d t IH]; [reflexivity|].
  intros H. pose proof (space_free_head _ H) as Hw.
  simpl space_free in H. apply andb_prop in H as [_ Ht].
  rewrite py_rstrip_cons, (IH Ht).
  destruct (is_ws_char (String d t)) eqn:Hc; [|reflexivity].
  now apply is_ws_char_ws_width in Hc.
Qed.

Lemma py_strip_space_free (s : string) :
  space_free s = true -> py_strip s = s.
Proof.
  intros H. unfold py_strip. rewrite (py_lstrip_space_free _ H).
  now apply py_rstrip_space_free.
Qed.

(** ** Facts about the configuration lookups *)

Lemma env_has_false (environ : gmap string string) (name : string) :
  environ !! name = None -> env_has environ name = false.
Proof. intros H. unfold env_has. now rewrite H. Qed.

Lemma show_missing_routes_true (environ : gmap string string) :
  show_missing_routes environ = true <->
  exists v, environ !! "IRI_SHOW_MISSING_ROUTES" = Some v /\
            (v = "true" \/ v = "1" \/ v = "on" \/ v = "yes").
Proof.
  unfold show_missing_routes, py_in.
  destruct (environ !! "IRI_SHOW_MISSING_ROUTES") as [v|]; simpl.
  - rewrite !orb_true_iff, !String.eqb_eq. split.
    + intros H. exists v. split; [reflexivity|]. intuition discriminate.
    + intros (w & Hw & H). injection Hw as ->. tauto.
  - split; [discriminate|]. intros (w & Hw & _). discriminate.
Qed.

Lemma show_missing_routes_false (environ : gmap string string) :
  (forall v, environ !! "IRI_SHOW_MISSING_ROUTES" = Some v ->
             v <> "true" /\ v <> "1" /\ v <> "on" /\ v <> "yes") ->
  show_missing_routes environ = false.
Proof.
  intros H. apply not_true_is_false. intros Ht.
  apply show_missing_routes_true in Ht as (v & Hv & Hin).
  specialize (H v Hv). tauto.
Qed.

(** A failing [create_adapter] makes the constructor fail with the same
    exception. *)
Lemma IriRouter_init_raises (environ : gmap string string)
    (mods : gmap string (gmap string PyObj)) (router_adapter : PyObj)
    (kw : Kwargs) (self self' : IriRouter) (e : PyExc) :
  APIRouter_init kw = Return self ->
  create_adapter environ mods self router_adapter = (self', Raise e) ->
  IriRouter_init environ mods router_adapter kw = Raise e.
Proof.
  intros Hk Hc. unfold IriRouter_init. rewrite Hk. simpl.
  now rewrite Hc.
Qed.

Lemma IriRouter_init_returns (environ : gmap string string)
    (mods : gmap string (gmap string PyObj)) (router_adapter : PyObj)
    (kw : Kwargs) (self self' : IriRouter) :
  APIRouter_init kw = Return self ->
  create_adapter environ mods self router_adapter = (self', Return tt) ->
  IriRouter_init environ mods router_adapter kw = Return self'.
Proof.
  intros Hk Hc. unfold IriRouter_init. rewrite Hk. simpl.
  now rewrite Hc.
Qed.

Lemma APIRouter_init_fields (kw : Kwargs) (self : IriRouter) :
  APIRouter_init kw = Return self ->
  prefix self = kw_prefix kw /\
  include_in_schema self = kw_include_in_schema kw /\
  adapter self = None.
Proof.
  unfold APIRouter_init.
  destruct (negb (String.eqb (kw_prefix kw) EmptyString)
            && negb (py_startswith "/" (kw_prefix kw))); [discriminate|].
  destruct (negb (String.eqb (kw_prefix kw) EmptyString)
            && py_endswith "/" (kw_prefix kw)); [discriminate|].
  intros H. injection H as <-. simpl. auto.
Qed.

(** ** Client address extraction *)

Lemma falsy_str_Some (v : string) :
  v <> EmptyString -> falsy_str (Some v) = false.
Proof. intros H. simpl. now apply String.eqb_neq. Qed.

(** C9 (as the code has it).  [get_real_ip] follows a fixed precedence.
    A non-empty [HTTP_X_REAL_IP] header wins; failing that (header absent
    or empty) a non-empty [x-real-ip] header is returned; failing both,
    the host of the request's peer address is returned when the request
    has one, and the access to [client.host] raises [AttributeError] when
    it has none.  In particular a request carrying [x-real-ip: 9.9.9.9]
    and no [HTTP_X_REAL_IP] yields [9.9.9.9], and a request with neither
    header and a peer address yields that address. *)
Theorem get_real_ip_precedence (request : Request) :
  (forall v,
      headers_get "HTTP_X_REAL_IP" (headers request) = Some v ->
      v <> EmptyString ->
      get_real_ip request = Return (Some v)) /\
  (forall v,
      falsy_str (headers_get "HTTP_X_REAL_IP" (headers request)) = true ->
      headers_get "x-real-ip" (headers request) = Some v ->
      v <> EmptyString ->
      get_real_ip request = Return (Some v)) /\
  (forall a,
      falsy_str (headers_get "HTTP_X_REAL_IP" (headers request)) = true ->
      falsy_str (headers_get "x-real-ip" (headers request)) = true ->
      client request = Some a ->
      get_real_ip request = Return (Some (host a))) /\
  (headers_get "HTTP_X_REAL_IP" (headers request) = None ->
   headers_get "x-real-ip" (headers request) = Some "9.9.9.9" ->
   get_real_ip request = Return (Some "9.9.9.9")) /\
  (forall a,
      headers_get "HTTP_X_REAL_IP" (headers request) = None ->
      headers_get "x-real-ip" (headers request) = None ->
      client request = Some a ->
      get_real_ip request = Return (Some (host a))) /\
  (falsy_str (headers_get "HTTP_X_REAL_IP" (headers request)) = true ->
   falsy_str (headers_get "x-real-ip" (headers request)) = true ->
   client request = None ->
   get_real_ip request =
     Raise (AttributeError "'NoneType' object has no attribute 'host'")).
Proof.
  unfold get_real_ip, client_host. repeat split.
  - intros v Hv Hne. rewrite Hv, (falsy_str_Some v Hne). reflexivity.
  - intros v H1 Hv Hne. rewrite H1, Hv, (falsy_str_Some v Hne). reflexivity.
  - intros a H1 H2 Hc. now rewrite H1, H2, Hc.
  - intros H1 H2. rewrite H1, H2. reflexivity.
  - intros a H1 H2 Hc. now rewrite H1, H2, Hc.
  - intros H1 H2 Hc. now rewrite H1, H2, Hc.
Qed.

Lemma get_real_ip_precedence_witness :
  get_real_ip
    (mkRequest [("http_x_real_ip", "1.2.3.4"); ("x-real-ip", "9.9.9.9")]
       (Some Samples.peer) ∅) = Return (Some "1.2.3.4") /\
  get_real_ip
    (mkRequest [("http_x_real_ip", EmptyString); ("x-real-ip", "9.9.9.9")]
       (Some Samples.peer) ∅) = Return (Some "9.9.9.9") /\
  get_real_ip Samples.proxied_request = Return (Some "9.9.9.9") /\
  get_real_ip Samples.bare_request = Return (Some "10.0.0.7") /\
  get_real_ip (mkRequest [("host", "api.example.org")] None ∅) =
    Raise (AttributeError "'NoneType' object has no attribute 'host'").
Proof.
  split; [|split; [|split; [|split]]].
  - apply (proj1 (get_real_ip_precedence _) "1.2.3.4");
      [reflexivity | discriminate].
  - apply (proj1 (proj2 (get_real_ip_precedence _)) "9.9.9.9");
      [reflexivity | reflexivity | discriminate].
  - apply (proj1 (proj2 (proj2 (proj2 (get_real_ip_precedence _)))));
      reflexivity.
  - apply (proj1 (proj2 (proj2 (proj2 (proj2 (get_real_ip_precedence _)))))
             Samples.peer); reflexivity.
  - apply (proj2 (proj2 (proj2 (proj2 (proj2 (get_real_ip_precedence _))))));
      reflexivity.
Defined.

(** C9 (as the spec has it) fails for a request that has no peer address:
    with neither header there is no address to return, and [get_real_ip]
    raises instead of returning. *)
Lemma get_real_ip_peerless_raises :
  let request := mkRequest [("host", "api.example.org")] None ∅ in
  headers_get "HTTP_X_REAL_IP" (headers request) = None /\
  headers_get "x-real-ip" (headers request) = None /\
  client request = None /\
  get_real_ip request =
    Raise (AttributeError "'NoneType' object has no attribute 'host'") /\
  (forall o, get_real_ip request <> Return o).
Proof.
  simpl. repeat split. intros o. vm_compute. discriminate.
Qed.

(** Without a peer address and without either header the attribute access
    [request.client.host] fails. *)
Lemma get_real_ip_no_client (request : Request) :
  falsy_str (headers_get "HTTP_X_REAL_IP" (headers request)) = true ->
  falsy_str (headers_get "x-real-ip" (headers request)) = true ->
  client request = None ->
  get_real_ip request =
    Raise (AttributeError "'NoneType' object has no attribute 'host'").
Proof.
  intros H1 H2 Hc. unfold get_real_ip, client_host. now rewrite H1, H2, Hc.
Qed.

(** ** Request authentication *)

Lemma resolve_user_bound (self : IriRouter) (request : Request)
    (api_key : string) (a : Adapter) (ip : option string) :
  adapter self = Some a ->
  get_real_ip request = Return ip ->
  resolve_user self request api_key = get_current_user a api_key ip.
Proof.
  intros Ha Hip. unfold resolve_user. rewrite Ha, Hip. reflexivity.
Qed.

(** A failed or empty resolution is a 403, and the request is left as it
    was. *)
Lemma current_user_denied (self : IriRouter) (request : Request)
    (api_key : string) :
  (exists e, resolve_user self request api_key = Raise e /\
             isinstance_Exception e = true) \/
  (exists v, resolve_user self request api_key = Return v /\
             truthy v = false) ->
  current_user self request api_key =
    (request, Raise (HTTPException 403 "Unauthorized access")).
Proof.
  unfold current_user.
  intros [(e & -> & He) | (v & -> & Hv)]; simpl.
  - now rewrite He.
  - now rewrite Hv.
Qed.

(** C1 (as the code has it).  On a router with a bound adapter, when the
    adapter's [get_current_user] call raises an exception of a class
    deriving from [Exception], or returns a falsy value, [current_user]
    raises [HTTPException] with status 403 and detail
    [Unauthorized access], and the request, its [state] included, is left
    unchanged. *)
Theorem current_user_rejects (self : IriRouter) (request : Request)
    (api_key : string) (a : Adapter) (ip : option string) :
  adapter self = Some a ->
  get_real_ip request = Return ip ->
  (exists e, get_current_user a api_key ip = Raise e /\
             isinstance_Exception e = true) \/
  (exists v, get_current_user a api_key ip = Return v /\
             truthy v = false) ->
  current_user self request api_key =
    (request, Raise (HTTPException 403 "Unauthorized access")) /\
  state (fst (current_user self request api_key)) = state request.
Proof.
  intros Ha Hip H.
  assert (Hc : current_user self request api_key =
               (request, Raise (HTTPException 403 "Unauthorized access"))).
  { apply current_user_denied.
    rewrite (resolve_user_bound _ _ _ _ _ Ha Hip). exact H. }
  rewrite Hc. split; reflexivity.
Qed.

Lemma current_user_rejects_witness :
  current_user (mkRouter "/status" true (Some Samples.failing_adapter))
    Samples.bare_request "good" =
    (Samples.bare_request, Raise (HTTPException 403 "Unauthorized access")) /\
  current_user (mkRouter "/status" true (Some Samples.demo_adapter))
    Samples.bare_request "stale" =
    (Samples.bare_request, Raise (HTTPException 403 "Unauthorized access")).
Proof.
  split.
  - apply (current_user_rejects _ _ _ Samples.failing_adapter (Some "10.0.0.7"));
      [reflexivity | reflexivity |].
    left. exists (OtherException "ConnectionError" "backend down").
    split; reflexivity.
  - apply (current_user_rejects _ _ _ Samples.demo_adapter (Some "10.0.0.7"));
      [reflexivity | reflexivity |].
    right. exists (VStr EmptyString). split; reflexivity.
Defined.

(** C1 (as the spec has it) fails for an exception that does not derive
    from [Exception]: the adapter is bound, its call raises
    [asyncio.CancelledError], and [current_user] lets that exception
    through instead of raising the 403. *)
Lemma current_user_cancellation_propagates :
  let self := mkRouter "/status" true (Some Samples.cancelled_adapter) in
  adapter self = Some Samples.cancelled_adapter /\
  get_real_ip Samples.bare_request = Return (Some "10.0.0.7") /\
  get_current_user Samples.cancelled_adapter "good" (Some "10.0.0.7") =
    Raise (NonException "asyncio.CancelledError") /\
  current_user self Samples.bare_request "good" =
    (Samples.bare_request, Raise (NonException "asyncio.CancelledError")) /\
  snd (current_user self Samples.bare_request "good") <>
    Raise (HTTPException 403 "Unauthorized access").
Proof.
  simpl. repeat split; try reflexivity. vm_compute. discriminate.
Qed.

(** C2.  On a router with a bound adapter, when the adapter's
    [get_current_user] call returns a truthy value (a non-empty token),
    [current_user] returns normally, with [request.state.current_user_id]
    set to that value and [request.state.api_key] set to the credential;
    the rest of the request is untouched. *)
Theorem current_user_accepts (self : IriRouter) (request : Request)
    (api_key : string) (a : Adapter) (ip : option string) (v : PyVal) :
  adapter self = Some a ->
  get_real_ip request = Return ip ->
  get_current_user a api_key ip = Return v ->
  truthy v = true ->
  exists request',
    current_user self request api_key = (request', Return tt) /\
    state request' !! "current_user_id" = Some v /\
    state request' !! "api_key" = Some (VStr api_key) /\
    (forall k, k <> "current_user_id" -> k <> "api_key" ->
               state request' !! k = state request !! k) /\
    headers request' = headers request /\
    client request' = client request.
Proof.
  intros Ha Hip Hv Ht. unfold current_user.
  rewrite (resolve_user_bound _ _ _ _ _ Ha Hip), Hv. simpl. rewrite Ht. simpl.
  eexists. split; [reflexivity|]. simpl. repeat split.
  - rewrite lookup_insert_ne by discriminate. apply lookup_insert_eq.
  - apply lookup_insert_eq.
  - intros k H1 H2. rewrite !lookup_insert_ne by congruence. reflexivity.
Qed.

Lemma current_user_accepts_witness :
  exists request',
    current_user (mkRouter "/status" true (Some Samples.demo_adapter))
      Samples.proxied_request "good" = (request', Return tt) /\
    state request' !! "current_user_id" = Some (VStr "alice") /\
    state request' !! "api_key" = Some (VStr "good").
Proof.
  destruct (current_user_accepts
              (mkRouter "/status" true (Some Samples.demo_adapter))
              Samples.proxied_request "good" Samples.demo_adapter
              (Some "9.9.9.9") (VStr "alice")
              eq_refl eq_refl eq_refl eq_refl)
    as (request' & Hc & Hid & Hkey & _).
  exists request'. auto.
Defined.

(** ** Adapter binding *)

(** The hiding branch of [create_adapter]. *)
Lemma create_adapter_hidden (environ : gmap string string)
    (mods : gmap string (gmap string PyObj))
    (self : IriRouter) (router_adapter : PyObj) :
  environ !! env_var self = None ->
  show_missing_routes environ = false ->
  create_adapter environ mods self router_adapter =
    (set_include_in_schema false self, Return tt).
Proof.
  intros He Hs. unfold create_adapter.
  now rewrite (env_has_false _ _ He), Hs.
Qed.

(** The loading branch of [create_adapter], for a configured group. *)
Lemma create_adapter_configured (environ : gmap string string)
    (mods : gmap string (gmap string PyObj))
    (self : IriRouter) (router_adapter : PyObj) (locator : string) :
  environ !! env_var self = Some locator ->
  create_adapter environ mods self router_adapter =
    match load_adapter mods locator router_adapter with
    | Return inst => (set_adapter inst self, Return tt)
    | Raise e => (self, Raise e)
    end.
Proof.
  intros He. unfold create_adapter, env_has. rewrite He. reflexivity.
Qed.

(** The loading branch of [create_adapter], for a group without an entry
    when missing routes are shown. *)
Lemma create_adapter_default (environ : gmap string string)
    (mods : gmap string (gmap string PyObj))
    (self : IriRouter) (router_adapter : PyObj) :
  environ !! env_var self = None ->
  show_missing_routes environ = true ->
  create_adapter environ mods self router_adapter =
    match load_adapter mods "app.demo_adapter.DemoAdapter" router_adapter with
    | Return inst => (set_adapter inst self, Return tt)
    | Raise e => (self, Raise e)
    end.
Proof.
  intros He Hs. unfold create_adapter, env_has. rewrite He, Hs. reflexivity.
Qed.

(** [load_adapter] up to the subclass check, once the locator's module and
    symbol are found. *)
Lemma load_adapter_found (mods : gmap string (gmap string PyObj))
    (locator m s : string) (router_adapter : PyObj)
    (md : gmap string PyObj) (o : PyObj) :
  py_rsplit1 "." locator = [m; s] ->
  import_module mods m = Return md ->
  md !! s = Some o ->
  load_adapter mods locator router_adapter =
    (sub ← issubclass o router_adapter;
     if negb sub then
       Raise (PlainException (locator +:+ " should implement FacilityAdapter"))
     else py_call o []).
Proof.
  intros Hsplit Himp Hget. unfold load_adapter. rewrite Hsplit. cbn.
  rewrite Himp. cbn. unfold module_getattr. rewrite Hget. reflexivity.
Qed.

Lemma import_module_found (mods : gmap string (gmap string PyObj))
    (m : string) (md : gmap string PyObj) :
  py_startswith "." m = false -> m <> EmptyString ->
  mods !! m = Some md -> import_module mods m = Return md.
Proof.
  intros Hrel Hne Hm. unfold import_module. rewrite Hrel.
  apply String.eqb_neq in Hne. now rewrite Hne, Hm.
Qed.

(** C3.  For a group without a per-group entry in the environment, when
    the value of the show-missing flag is not one of the truthy strings,
    [create_adapter] returns without raising, with [include_in_schema] set
    to false and no adapter bound: the [adapter] attribute is as it was
    before the call, whatever the import system holds, and a router built
    by the constructor has none. *)
Theorem unconfigured_group_is_hidden (environ : gmap string string)
    (mods : gmap string (gmap string PyObj))
    (self : IriRouter) (router_adapter : PyObj) :
  environ !! env_var self = None ->
  (forall v, environ !! "IRI_SHOW_MISSING_ROUTES" = Some v ->
             v <> "true" /\ v <> "1" /\ v <> "on" /\ v <> "yes") ->
  snd (create_adapter environ mods self router_adapter) = Return tt /\
  include_in_schema (fst (create_adapter environ mods self router_adapter))
    = false /\
  adapter (fst (create_adapter environ mods self router_adapter))
    = adapter self /\
  (forall kw, APIRouter_init kw = Return self ->
     exists self',
       IriRouter_init environ mods router_adapter kw = Return self' /\
       include_in_schema self' = false /\ adapter self' = None).
Proof.
  intros He Hs.
  pose proof (create_adapter_hidden environ mods self router_adapter He
                (show_missing_routes_false _ Hs)) as Hc.
  rewrite Hc. simpl. repeat split.
  intros kw Hk. exists (set_include_in_schema false self).
  split; [exact (IriRouter_init_returns _ _ _ _ _ _ Hk Hc)|].
  simpl. split; [reflexivity|]. now apply APIRouter_init_fields in Hk.
Qed.

Lemma unconfigured_group_is_hidden_witness :
  snd (create_adapter {[ "IRI_SHOW_MISSING_ROUTES" := "no" ]} Samples.modules
         Samples.status_router (OClass Samples.FacilityAdapter)) = Return tt /\
  include_in_schema
    (fst (create_adapter {[ "IRI_SHOW_MISSING_ROUTES" := "no" ]} Samples.modules
            Samples.status_router (OClass Samples.FacilityAdapter))) = false.
Proof.
  assert (He : ({[ "IRI_SHOW_MISSING_ROUTES" := "no" ]} : gmap string string)
               !! env_var Samples.status_router = None) by reflexivity.
  assert (Hs : forall v,
             ({[ "IRI_SHOW_MISSING_ROUTES" := "no" ]} : gmap string string)
               !! "IRI_SHOW_MISSING_ROUTES" = Some v ->
             v <> "true" /\ v <> "1" /\ v <> "on" /\ v <> "yes").
  { intros v Hv. vm_compute in Hv. injection Hv as <-.
    repeat split; discriminate. }
  destruct (unconfigured_group_is_hidden _ Samples.modules
              Samples.status_router (OClass Samples.FacilityAdapter) He Hs)
    as (H1 & H2 & _).
  split; assumption.
Defined.

(** C4 (as the code has it).  Whether missing routes are shown is decided
    by the environment variable [IRI_SHOW_MISSING_ROUTES] alone: the answer
    is yes exactly when that variable is set and its value is, character
    for character, one of [true], [1], [on], [yes]; any other value, and an
    unset variable, mean no. *)
Theorem show_missing_routes_decision (environ : gmap string string) :
  (show_missing_routes environ = true <->
   exists v, environ !! "IRI_SHOW_MISSING_ROUTES" = Some v /\
             (v = "true" \/ v = "1" \/ v = "on" \/ v = "yes")) /\
  (environ !! "IRI_SHOW_MISSING_ROUTES" = None ->
   show_missing_routes environ = false) /\
  (forall environ' : gmap string string,
     environ' !! "IRI_SHOW_MISSING_ROUTES"
       = environ !! "IRI_SHOW_MISSING_ROUTES" ->
     show_missing_routes environ' = show_missing_routes environ).
Proof.
  split; [apply show_missing_routes_true|]. split.
  - intros H. unfold show_missing_routes. now rewrite H.
  - intros environ' H. unfold show_missing_routes. now rewrite H.
Qed.

Lemma show_missing_routes_decision_witness :
  show_missing_routes {[ "IRI_SHOW_MISSING_ROUTES" := "on" ]} = true /\
  show_missing_routes {[ "IRI_API_ADAPTER_status" := "true" ]} = false.
Proof.
  split.
  - apply (proj1 (show_missing_routes_decision _)).
    exists "on". split; [reflexivity|]. right. right. left. reflexivity.
  - apply (proj1 (proj2 (show_missing_routes_decision _))). reflexivity.
Defined.

(** The match is case-sensitive and admits no other spelling. *)
Example show_missing_routes_spellings :
  show_missing_routes {[ "IRI_SHOW_MISSING_ROUTES" := "True" ]} = false /\
  show_missing_routes {[ "IRI_SHOW_MISSING_ROUTES" := "YES" ]} = false /\
  show_missing_routes {[ "IRI_SHOW_MISSING_ROUTES" := "y" ]} = false /\
  show_missing_routes {[ "IRI_SHOW_MISSING_ROUTES" := " on" ]} = false.
Proof. repeat split. Qed.

(** C4 (as the spec has it) fails: with [IRI_API_SHOW_MISSING_ROUTES] set
    to [true] (and [IRI_SHOW_MISSING_ROUTES] unset) missing routes are not
    shown, and the unconfigured group is hidden. *)
Lemma show_missing_key_is_not_the_api_one :
  let environ : gmap string string :=
    {[ "IRI_API_SHOW_MISSING_ROUTES" := "true" ]} in
  environ !! "IRI_API_SHOW_MISSING_ROUTES" = Some "true" /\
  show_missing_routes environ = false /\
  create_adapter environ Samples.modules Samples.status_router
    (OClass Samples.FacilityAdapter) =
    (mkRouter "/status" false None, Return tt).
Proof. repeat split. Qed.

(** C5 (as the code has it).  The per-group key consulted at construction
    is [IRI_API_ADAPTER_] followed by the route prefix with every ["/"]
    removed and surrounding whitespace stripped; the letters keep their
    case.  For a prefix made of ["/"] and a name [n] free of separators
    and whitespace the key is [IRI_API_ADAPTER_] followed by [n] itself, and
    [create_adapter] reads the environment at this key and at
    [IRI_SHOW_MISSING_ROUTES] only. *)
Theorem env_var_keeps_case (self : IriRouter) :
  env_var self
    = "IRI_API_ADAPTER_" +:+ py_strip (py_remove_char "/" (prefix self)) /\
  (space_free (py_remove_char "/" (prefix self)) = true ->
   env_var self = "IRI_API_ADAPTER_" +:+ py_remove_char "/" (prefix self)) /\
  (forall n, prefix self = String "/" n ->
             free_of "/" n = true -> space_free n = true ->
             env_var self = "IRI_API_ADAPTER_" +:+ n) /\
  (forall (environ environ' : gmap string string) mods router_adapter,
     environ' !! env_var self = environ !! env_var self ->
     environ' !! "IRI_SHOW_MISSING_ROUTES"
       = environ !! "IRI_SHOW_MISSING_ROUTES" ->
     create_adapter environ' mods self router_adapter
       = create_adapter environ mods self router_adapter).
Proof.
  split; [reflexivity|]. split; [|split].
  - intros H. unfold env_var, router_name.
    now rewrite (py_strip_space_free _ H).
  - intros n Hp Hn Hs. unfold env_var, router_name. rewrite Hp. simpl.
    rewrite (py_remove_char_free_of _ _ Hn).
    now rewrite (py_strip_space_free _ Hs).
  - intros environ environ' mods router_adapter H1 H2.
    unfold create_adapter, env_has, show_missing_routes.
    now rewrite H1, H2.
Qed.

Lemma env_var_keeps_case_witness :
  env_var (mkRouter "/Status" true None) = "IRI_API_ADAPTER_Status" /\
  env_var (mkRouter "/api/v1/compute" true None)
    = "IRI_API_ADAPTER_apiv1compute".
Proof.
  split.
  - destruct (env_var_keeps_case (mkRouter "/Status" true None))
      as (_ & _ & H & _).
    apply (H "Status"); reflexivity.
  - destruct (env_var_keeps_case (mkRouter "/api/v1/compute" true None))
      as (_ & H & _).
    apply H. reflexivity.
Defined.

(** Whitespace left at either end once the separators are gone is dropped;
    whitespace inside the name stays. *)
Example env_var_strips_whitespace :
  env_var (mkRouter "/ my status " true None) = "IRI_API_ADAPTER_my status".
Proof. reflexivity. Qed.

(** Whitespace outside ASCII goes too: here the prefix ends with a
    no-break space, U+00A0, two bytes in UTF-8, and begins, after the
    separator, with an ideographic space, U+3000, three bytes. *)
Example env_var_strips_unicode_whitespace :
  env_var
    (mkRouter
       ("/" +:+ String (ascii_of_nat 227) (String (ascii_of_nat 128)
                  (String (ascii_of_nat 128) EmptyString))
            +:+ "status"
            +:+ String (ascii_of_nat 194) (String (ascii_of_nat 160)
                  EmptyString))
       true None)
    = "IRI_API_ADAPTER_status".
Proof. reflexivity. Qed.

(** C5 (as the spec has it) fails: for the prefix [/status] the key is
    [IRI_API_ADAPTER_status], not [IRI_API_ADAPTER_STATUS], and an entry
    under the upper-cased key is not consulted: the group is hidden. *)
Lemma env_var_is_not_uppercased :
  prefix Samples.status_router = "/status" /\
  env_var Samples.status_router = "IRI_API_ADAPTER_status" /\
  env_var Samples.status_router <> "IRI_API_ADAPTER_STATUS" /\
  create_adapter
    {[ "IRI_API_ADAPTER_STATUS" := "app.demo_adapter.DemoAdapter" ]}
    Samples.modules Samples.status_router (OClass Samples.FacilityAdapter) =
    (mkRouter "/status" false None, Return tt).
Proof.
  split; [reflexivity|]. split; [reflexivity|].
  split; [vm_compute; discriminate | reflexivity].
Qed.

(** C6 (as the code has it).  When the configured locator loads a class
    for which the subclass check against the required contract says no,
    [create_adapter] raises an exception whose message is the locator
    followed by [should implement FacilityAdapter], with that fixed name
    whatever the contract is; the router's [adapter] is left unbound, and
    the constructor fails with that exception. *)
Theorem contract_mismatch_is_fatal (environ : gmap string string)
    (mods : gmap string (gmap string PyObj)) (self : IriRouter)
    (locator m s : string) (md : gmap string PyObj) (C : PyClass)
    (router_adapter : PyObj) :
  environ !! env_var self = Some locator ->
  py_rsplit1 "." locator = [m; s] ->
  import_module mods m = Return md ->
  md !! s = Some (OClass C) ->
  issubclass (OClass C) router_adapter = Return false ->
  create_adapter environ mods self router_adapter =
    (self,
     Raise (PlainException (locator +:+ " should implement FacilityAdapter"))) /\
  adapter (fst (create_adapter environ mods self router_adapter))
    = adapter self /\
  (forall kw, APIRouter_init kw = Return self ->
     IriRouter_init environ mods router_adapter kw =
       Raise (PlainException (locator +:+ " should implement FacilityAdapter"))).
Proof.
  intros He Hsplit Himp Hget Hsub.
  assert (Hc : create_adapter environ mods self router_adapter =
    (self,
     Raise (PlainException (locator +:+ " should implement FacilityAdapter")))).
  { rewrite (create_adapter_configured _ _ _ _ _ He).
    rewrite (load_adapter_found _ _ _ _ _ _ _ Hsplit Himp Hget).
    rewrite Hsub. reflexivity. }
  split; [exact Hc|]. split; [now rewrite Hc|].
  intros kw Hk. exact (IriRouter_init_raises _ _ _ _ _ _ _ Hk Hc).
Qed.

Lemma contract_mismatch_is_fatal_witness :
  create_adapter {[ "IRI_API_ADAPTER_status" := "vendor.tools.Unrelated" ]}
    Samples.modules Samples.status_router (OClass Samples.FacilityAdapter) =
    (Samples.status_router,
     Raise (PlainException
              "vendor.tools.Unrelated should implement FacilityAdapter")).
Proof.
  apply (contract_mismatch_is_fatal
           {[ "IRI_API_ADAPTER_status" := "vendor.tools.Unrelated" ]}
           Samples.modules Samples.status_router
           "vendor.tools.Unrelated" "vendor.tools" "Unrelated"
           Samples.tools_module
           Samples.Unrelated (OClass Samples.FacilityAdapter));
    reflexivity.
Defined.

(** C6 (as the spec has it) fails in two ways.  With the contract
    [AuthenticatedAdapter] and a class that has nothing to do with it, the
    message names [FacilityAdapter] and not the contract that was asked
    for.  And a class that derives from the contract without implementing
    both operations passes the check and fails when it is called, with a
    [TypeError] and not with the message about the locator. *)
Lemma mismatch_message_misses_contract :
  cls_name AuthenticatedAdapter
    = "app.routers.iri_router.AuthenticatedAdapter" /\
  issubclass (OClass Samples.Unrelated) (OClass AuthenticatedAdapter)
    = Return false /\
  create_adapter Samples.env_unrelated Samples.modules Samples.status_router
    (OClass AuthenticatedAdapter) =
    (Samples.status_router,
     Raise (PlainException
              "vendor.tools.Unrelated should implement FacilityAdapter")) /\
  index 0 "AuthenticatedAdapter"
    "vendor.tools.Unrelated should implement FacilityAdapter" = None /\
  cls_abstractmethods Samples.HalfAdapter = ["get_user"] /\
  issubclass (OClass Samples.HalfAdapter) (OClass AuthenticatedAdapter)
    = Return true /\
  create_adapter Samples.env_half Samples.half_modules Samples.status_router
    (OClass AuthenticatedAdapter) =
    (Samples.status_router,
     Raise (TypeError "Can't instantiate abstract class")).
Proof. repeat split. Qed.

(** The subclass check is nominal.  A class that derives from the contract
    but leaves an operation abstract passes it, and fails when it is
    called: here the locator names the contract class itself. *)
Example abstract_class_fails_at_instantiation :
  issubclass (OClass AuthenticatedAdapter) (OClass AuthenticatedAdapter)
    = Return true /\
  load_adapter Samples.modules "app.routers.iri_router.AuthenticatedAdapter"
    (OClass AuthenticatedAdapter)
    = Raise (TypeError "Can't instantiate abstract class").
Proof. split; reflexivity. Qed.

(** C7.  For a group without a per-group entry, when the show-missing flag
    holds one of [true], [1], [on], [yes], [create_adapter] does not hide
    the group and resolves the default locator
    [app.demo_adapter.DemoAdapter]: when that class is importable and
    satisfies the contract, the instance obtained by calling it with no
    arguments is bound as the router's adapter, and [include_in_schema]
    stays as it was. *)
Theorem unconfigured_group_shown_binds_default (environ : gmap string string)
    (mods : gmap string (gmap string PyObj)) (self : IriRouter)
    (router_adapter : PyObj) (v : string) :
  environ !! env_var self = None ->
  environ !! "IRI_SHOW_MISSING_ROUTES" = Some v ->
  v = "true" \/ v = "1" \/ v = "on" \/ v = "yes" ->
  create_adapter environ mods self router_adapter =
    match load_adapter mods "app.demo_adapter.DemoAdapter" router_adapter with
    | Return inst => (set_adapter inst self, Return tt)
    | Raise e => (self, Raise e)
    end /\
  (forall md C inst,
     mods !! "app.demo_adapter" = Some md ->
     md !! "DemoAdapter" = Some (OClass C) ->
     issubclass (OClass C) router_adapter = Return true ->
     py_call (OClass C) [] = Return inst ->
     exists self',
       create_adapter environ mods self router_adapter = (self', Return tt) /\
       adapter self' = Some inst /\
       include_in_schema self' = include_in_schema self /\
       prefix self' = prefix self).
Proof.
  intros He Hv Hin.
  assert (Hs : show_missing_routes environ = true).
  { apply show_missing_routes_true. exists v. auto. }
  pose proof (create_adapter_default _ mods _ router_adapter He Hs) as Hc.
  split; [exact Hc|].
  intros md C inst Hm Hget Hsub Hcall. exists (set_adapter inst self).
  split; [|repeat split]. rewrite Hc.
  rewrite (load_adapter_found mods "app.demo_adapter.DemoAdapter"
             "app.demo_adapter" "DemoAdapter" router_adapter md (OClass C)
             eq_refl
             (import_module_found mods "app.demo_adapter" md eq_refl
                ltac:(discriminate) Hm)
             Hget).
  rewrite Hsub. cbn -[py_call]. now rewrite Hcall.
Qed.

Lemma unconfigured_group_shown_binds_default_witness :
  exists self',
    create_adapter Samples.env_show Samples.modules
      Samples.status_router (OClass Samples.FacilityAdapter)
      = (self', Return tt) /\
    adapter self' = Some Samples.demo_adapter /\
    include_in_schema self' = true.
Proof.
  assert (He : Samples.env_show !! env_var Samples.status_router = None)
    by reflexivity.
  assert (Hv : Samples.env_show !! "IRI_SHOW_MISSING_ROUTES" = Some "1")
    by reflexivity.
  destruct (unconfigured_group_shown_binds_default
              Samples.env_show Samples.modules
              Samples.status_router (OClass Samples.FacilityAdapter) "1"
              He Hv (or_intror (or_introl eq_refl)))
    as [_ H].
  assert (Hm : Samples.modules !! "app.demo_adapter" = Some Samples.demo_module)
    by reflexivity.
  assert (Hg : Samples.demo_module !! "DemoAdapter"
               = Some (OClass Samples.DemoAdapter)) by reflexivity.
  destruct (H Samples.demo_module Samples.DemoAdapter Samples.demo_adapter
              Hm Hg eq_refl eq_refl)
    as (self' & Hc & Ha & Hi & _).
  exists self'. auto.
Defined.

(** C8.  The locator is cut at its last ["."] into a module path and a
    symbol name.  For a configured locator whose module path is not
    importable, [create_adapter] raises [ModuleNotFoundError]; for one whose
    module has no attribute of the symbol's name it raises
    [AttributeError].  In both cases no adapter is bound and the
    constructor fails with the same exception, so that no router exists to
    serve a request. *)
Theorem unknown_locator_is_fatal (environ : gmap string string)
    (mods : gmap string (gmap string PyObj)) (self : IriRouter)
    (router_adapter : PyObj) (m s : string) :
  free_of "." s = true ->
  py_rsplit1 "." (m +:+ String "." s) = [m; s] /\
  (environ !! env_var self = Some (m +:+ String "." s) ->
   m <> EmptyString -> py_startswith "." m = false ->
   mods !! m = None ->
   create_adapter environ mods self router_adapter
     = (self, Raise (ModuleNotFoundError m)) /\
   (forall kw, APIRouter_init kw = Return self ->
      IriRouter_init environ mods router_adapter kw
        = Raise (ModuleNotFoundError m))) /\
  (forall md,
     environ !! env_var self = Some (m +:+ String "." s) ->
     m <> EmptyString -> py_startswith "." m = false ->
     mods !! m = Some md -> md !! s = None ->
     create_adapter environ mods self router_adapter
       = (self,
          Raise (AttributeError ("module has no attribute '" +:+ s +:+ "'"))) /\
     (forall kw, APIRouter_init kw = Return self ->
        IriRouter_init environ mods router_adapter kw
          = Raise (AttributeError
                     ("module has no attribute '" +:+ s +:+ "'")))).
Proof.
  intros Hs.
  pose proof (py_rsplit1_append "." m s Hs) as Hsplit.
  split; [exact Hsplit|]. split.
  - intros He Hne Hrel Hm.
    assert (Hc : create_adapter environ mods self router_adapter
                 = (self, Raise (ModuleNotFoundError m))).
    { rewrite (create_adapter_configured _ _ _ _ _ He).
      unfold load_adapter. rewrite Hsplit. cbn.
      unfold import_module. rewrite Hrel.
      apply String.eqb_neq in Hne. rewrite Hne, Hm. reflexivity. }
    split; [exact Hc|].
    intros kw Hk. exact (IriRouter_init_raises _ _ _ _ _ _ _ Hk Hc).
  - intros md He Hne Hrel Hm Hget.
    assert (Hc : create_adapter environ mods self router_adapter
                 = (self,
                    Raise (AttributeError
                             ("module has no attribute '" +:+ s +:+ "'")))).
    { rewrite (create_adapter_configured _ _ _ _ _ He).
      unfold load_adapter. rewrite Hsplit. cbn.
      rewrite (import_module_found _ _ _ Hrel Hne Hm). cbn.
      unfold module_getattr. rewrite Hget. reflexivity. }
    split; [exact Hc|].
    intros kw Hk. exact (IriRouter_init_raises _ _ _ _ _ _ _ Hk Hc).
Qed.

Lemma unknown_locator_is_fatal_witness :
  py_rsplit1 "." "vendor.nope.Missing" = ["vendor.nope"; "Missing"] /\
  IriRouter_init Samples.env_no_module Samples.modules
    (OClass Samples.FacilityAdapter) Samples.status_kwargs
    = Raise (ModuleNotFoundError "vendor.nope") /\
  IriRouter_init Samples.env_no_symbol Samples.modules
    (OClass Samples.FacilityAdapter) Samples.status_kwargs
    = Raise (AttributeError "module has no attribute 'Missing'").
Proof.
  split; [|split].
  - exact (proj1 (unknown_locator_is_fatal Samples.env_no_module
                    Samples.modules Samples.status_router
                    (OClass Samples.FacilityAdapter)
                    "vendor.nope" "Missing" eq_refl)).
  - destruct (unknown_locator_is_fatal Samples.env_no_module
                Samples.modules Samples.status_router
                (OClass Samples.FacilityAdapter)
                "vendor.nope" "Missing" eq_refl) as (_ & H & _).
    destruct H as [_ H];
      [reflexivity | discriminate | reflexivity | reflexivity |].
    apply H. reflexivity.
  - destruct (unknown_locator_is_fatal Samples.env_no_symbol
                Samples.modules Samples.status_router
                (OClass Samples.FacilityAdapter)
                "vendor.tools" "Missing" eq_refl) as (_ & _ & H).
    destruct (H Samples.tools_module) as [_ H'];
      [reflexivity | discriminate | reflexivity | reflexivity
      | reflexivity |].
    apply H'. reflexivity.
Defined.

(** C10.  A router constructed hidden (no per-group entry, show-missing
    flag not truthy) has no [adapter] attribute; on it the lookup of
    [self.adapter] raises [AttributeError] inside the [try] block, and
    every call of [current_user] raises [HTTPException] with status 403 and
    detail [Unauthorized access], leaving the request unchanged. *)
Theorem hidden_router_denies (environ : gmap string string)
    (mods : gmap string (gmap string PyObj)) (router_adapter : PyObj)
    (kw : Kwargs) (self0 : IriRouter) :
  APIRouter_init kw = Return self0 ->
  environ !! env_var self0 = None ->
  show_missing_routes environ = false ->
  exists self,
    IriRouter_init environ mods router_adapter kw = Return self /\
    include_in_schema self = false /\
    adapter self = None /\
    forall request api_key,
      resolve_user self request api_key =
        Raise (AttributeError "'IriRouter' object has no attribute 'adapter'") /\
      current_user self request api_key =
        (request, Raise (HTTPException 403 "Unauthorized access")) /\
      state (fst (current_user self request api_key)) = state request.
Proof.
  intros Hk He Hs.
  pose proof (create_adapter_hidden environ mods self0 router_adapter He Hs)
    as Hc.
  destruct (APIRouter_init_fields _ _ Hk) as (_ & _ & Ha).
  exists (set_include_in_schema false self0).
  split; [exact (IriRouter_init_returns _ _ _ _ _ _ Hk Hc)|].
  split; [reflexivity|]. split; [exact Ha|].
  intros request api_key.
  assert (Hr : resolve_user (set_include_in_schema false self0) request api_key
               = Raise (AttributeError
                          "'IriRouter' object has no attribute 'adapter'")).
  { unfold resolve_user. simpl. now rewrite Ha. }
  split; [exact Hr|].
  assert (Hd : current_user (set_include_in_schema false self0) request api_key
               = (request, Raise (HTTPException 403 "Unauthorized access"))).
  { apply current_user_denied. left. eexists. split; [exact Hr|reflexivity]. }
  split; [exact Hd|]. now rewrite Hd.
Qed.

Lemma hidden_router_denies_witness :
  exists self,
    IriRouter_init ∅ Samples.modules (OClass Samples.FacilityAdapter)
      Samples.status_kwargs = Return self /\
    current_user self Samples.proxied_request "good" =
      (Samples.proxied_request,
       Raise (HTTPException 403 "Unauthorized access")).
Proof.
  assert (Hk : APIRouter_init Samples.status_kwargs
               = Return Samples.status_router) by reflexivity.
  assert (He : (∅ : gmap string string) !! env_var Samples.status_router
               = None) by reflexivity.
  assert (Hs : show_missing_routes ∅ = false) by reflexivity.
  destruct (hidden_router_denies ∅ Samples.modules
              (OClass Samples.FacilityAdapter) Samples.status_kwargs
              Samples.status_router Hk He Hs)
    as (self & Hi & _ & _ & H).
  exists self. split; [exact Hi|]. apply H.
Defined.

(** * Further properties *)

(** ** Client address extraction, completed *)

Lemma falsy_str_false (o : option string) :
  falsy_str o = false -> exists v, o = Some v /\ v <> EmptyString.
Proof.
  destruct o as [v|]; simpl; [|discriminate].
  intros H. exists v. split; [reflexivity|]. now apply String.eqb_neq.
Qed.

(** X1.  [get_real_ip] raises exactly when neither header carries a
    non-empty value and the request has no peer address; the exception is
    then the [AttributeError] of the access to [client.host]. *)
Theorem get_real_ip_raises_iff (request : Request) (e : PyExc) :
  get_real_ip request = Raise e <->
  falsy_str (headers_get "HTTP_X_REAL_IP" (headers request)) = true /\
  falsy_str (headers_get "x-real-ip" (headers request)) = true /\
  client request = None /\
  e = AttributeError "'NoneType' object has no attribute 'host'".
Proof.
  unfold get_real_ip, client_host.
  destruct (falsy_str (headers_get "HTTP_X_REAL_IP" (headers request)));
    [|split; [discriminate | intros (H & _); discriminate]].
  destruct (falsy_str (headers_get "x-real-ip" (headers request)));
    [|split; [discriminate | intros (_ & H & _); discriminate]].
  destruct (client request) as [a|].
  - split; [discriminate | intros (_ & _ & H & _); discriminate].
  - split.
    + intros H. injection H as <-. auto.
    + intros (_ & _ & _ & ->). reflexivity.
Qed.

Lemma get_real_ip_raises_iff_witness :
  get_real_ip MoreSamples.peerless_request =
    Raise (AttributeError "'NoneType' object has no attribute 'host'").
Proof.
  apply (proj2 (get_real_ip_raises_iff MoreSamples.peerless_request _)).
  repeat split.
Defined.

(** X2.  Whatever [get_real_ip] returns is a string, never [None], and it
    has one of three origins: the non-empty value of [HTTP_X_REAL_IP]; the
    non-empty value of [x-real-ip] when the first header gave nothing; or
    the peer's host when neither header gave anything.  An empty header
    value is never returned. *)
Theorem get_real_ip_origin (request : Request) (o : option string) :
  get_real_ip request = Return o ->
  exists v, o = Some v /\
    ((headers_get "HTTP_X_REAL_IP" (headers request) = Some v /\
      v <> EmptyString) \/
     (falsy_str (headers_get "HTTP_X_REAL_IP" (headers request)) = true /\
      headers_get "x-real-ip" (headers request) = Some v /\
      v <> EmptyString) \/
     (falsy_str (headers_get "HTTP_X_REAL_IP" (headers request)) = true /\
      falsy_str (headers_get "x-real-ip" (headers request)) = true /\
      exists a, client request = Some a /\ host a = v)).
Proof.
  unfold get_real_ip, client_host.
  destruct (falsy_str (headers_get "HTTP_X_REAL_IP" (headers request)))
    eqn:H1.
  - destruct (falsy_str (headers_get "x-real-ip" (headers request))) eqn:H2.
    + destruct (client request) as [a|]; [|discriminate].
      intros H. injection H as <-. exists (host a). split; [reflexivity|].
      right. right. repeat split. exists a. auto.
    + intros H. injection H as <-.
      destruct (falsy_str_false _ H2) as (v & Hv & Hne).
      exists v. split; [exact Hv|]. right. left. auto.
  - intros H. injection H as <-.
    destruct (falsy_str_false _ H1) as (v & Hv & Hne).
    exists v. split; [exact Hv|]. left. auto.
Qed.

Lemma get_real_ip_origin_witness :
  exists v, Some "9.9.9.9" = Some v /\
    ((headers_get "HTTP_X_REAL_IP" (headers Samples.proxied_request) = Some v /\
      v <> EmptyString) \/
     (falsy_str (headers_get "HTTP_X_REAL_IP" (headers Samples.proxied_request))
        = true /\
      headers_get "x-real-ip" (headers Samples.proxied_request) = Some v /\
      v <> EmptyString) \/
     (falsy_str (headers_get "HTTP_X_REAL_IP" (headers Samples.proxied_request))
        = true /\
      falsy_str (headers_get "x-real-ip" (headers Samples.proxied_request))
        = true /\
      exists a, client Samples.proxied_request = Some a /\ host a = v)).
Proof.
  apply (get_real_ip_origin Samples.proxied_request (Some "9.9.9.9")).
  reflexivity.
Defined.

(** ** Request authentication, completed *)

(** The three ways [current_user] can end. *)
Lemma current_user_cases (self : IriRouter) (request : Request)
    (api_key : string) :
  (exists v, resolve_user self request api_key = Return v /\
             truthy v = true /\
             current_user self request api_key =
               (set_state "api_key" (VStr api_key)
                  (set_state "current_user_id" v request), Return tt)) \/
  (current_user self request api_key =
     (request, Raise (HTTPException 403 "Unauthorized access")) /\
   ((exists v, resolve_user self request api_key = Return v /\
               truthy v = false) \/
    (exists e, resolve_user self request api_key = Raise e /\
               isinstance_Exception e = true))) \/
  (exists e, resolve_user self request api_key = Raise e /\
             isinstance_Exception e = false /\
             current_user self request api_key = (request, Raise e)).
Proof.
  unfold current_user.
  destruct (resolve_user self request api_key) as [v|e]; simpl.
  - destruct (truthy v) eqn:Ht; simpl.
    + left. exists v. auto.
    + right. left. split; [reflexivity|]. left. exists v. auto.
  - destruct (isinstance_Exception e) eqn:He; simpl.
    + right. left. split; [reflexivity|]. right. exists e. auto.
    + right. right. exists e. auto.
Qed.

Lemma resolve_user_Return (self : IriRouter) (request : Request)
    (api_key : string) (v : PyVal) :
  resolve_user self request api_key = Return v ->
  exists a ip, adapter self = Some a /\ get_real_ip request = Return ip /\
               get_current_user a api_key ip = Return v.
Proof.
  unfold resolve_user. destruct (adapter self) as [a|]; [|discriminate].
  destruct (get_real_ip request) as [ip|e]; [|discriminate].
  intros H. exists a, ip. auto.
Qed.

(** X3.  [current_user] never touches the headers or the peer address, it
    writes no state attribute other than [current_user_id] and [api_key],
    and whenever it raises the whole request, state included, is as it
    was: no partial identity is left behind. *)
Theorem current_user_frame (self : IriRouter) (request : Request)
    (api_key : string) :
  headers (fst (current_user self request api_key)) = headers request /\
  client (fst (current_user self request api_key)) = client request /\
  (forall k, k <> "current_user_id" -> k <> "api_key" ->
     state (fst (current_user self request api_key)) !! k
       = state request !! k) /\
  (forall e, snd (current_user self request api_key) = Raise e ->
     fst (current_user self request api_key) = request).
Proof.
  destruct (current_user_cases self request api_key)
    as [(v & _ & _ & ->) | [(-> & _) | (e & _ & _ & ->)]]; simpl;
    repeat split; try discriminate.
  intros k H1 H2. rewrite !lookup_insert_ne by congruence. reflexivity.
Qed.

(** X4.  [current_user] returns normally only when an adapter is bound,
    the client address could be extracted, and the adapter returned a
    truthy user id for the credential and that address; the request then
    carries exactly that id and that credential. *)
Theorem current_user_return_inv (self : IriRouter) (request : Request)
    (api_key : string) :
  snd (current_user self request api_key) = Return tt ->
  exists a ip v,
    adapter self = Some a /\
    get_real_ip request = Return ip /\
    get_current_user a api_key ip = Return v /\
    truthy v = true /\
    fst (current_user self request api_key) =
      set_state "api_key" (VStr api_key)
        (set_state "current_user_id" v request).
Proof.
  destruct (current_user_cases self request api_key)
    as [(v & Hr & Ht & ->) | [(-> & _) | (e & _ & _ & ->)]]; simpl;
    try discriminate.
  intros _. destruct (resolve_user_Return _ _ _ _ Hr) as (a & ip & Ha & Hip & Hv).
  exists a, ip, v. auto.
Qed.

Lemma current_user_return_inv_witness :
  exists a ip v,
    adapter (mkRouter "/status" true (Some Samples.demo_adapter)) = Some a /\
    get_real_ip Samples.bare_request = Return ip /\
    get_current_user a "good" ip = Return v /\
    truthy v = true.
Proof.
  destruct (current_user_return_inv
              (mkRouter "/status" true (Some Samples.demo_adapter))
              Samples.bare_request "good" eq_refl)
    as (a & ip & v & Ha & Hip & Hv & Ht & _).
  exists a, ip, v. auto.
Defined.

(** X5.  The only exception of a class deriving from [Exception] that
    leaves [current_user] is the [HTTPException] with status 403 and detail
    [Unauthorized access]: an adapter's own error, an adapter's own
    [HTTPException] with another status included, never reaches the
    caller.  Anything else that leaves it is an exception outside
    [Exception] raised by the resolution itself. *)
Theorem current_user_raises_only (self : IriRouter) (request : Request)
    (api_key : string) (e : PyExc) :
  snd (current_user self request api_key) = Raise e ->
  e = HTTPException 403 "Unauthorized access" \/
  (isinstance_Exception e = false /\
   resolve_user self request api_key = Raise e).
Proof.
  destruct (current_user_cases self request api_key)
    as [(v & _ & _ & ->) | [(-> & _) | (e' & Hr & He & ->)]]; simpl;
    try discriminate.
  - intros H. injection H as <-. now left.
  - intros H. injection H as <-. right. auto.
Qed.

Lemma current_user_raises_only_witness :
  HTTPException 403 "Unauthorized access"
    = HTTPException 403 "Unauthorized access" \/
  (isinstance_Exception (HTTPException 403 "Unauthorized access") = false /\
   resolve_user (mkRouter "/status" true (Some Samples.failing_adapter))
     Samples.bare_request "good"
     = Raise (HTTPException 403 "Unauthorized access")).
Proof.
  apply (current_user_raises_only
           (mkRouter "/status" true (Some Samples.failing_adapter))
           Samples.bare_request "good").
  reflexivity.
Defined.

(** X6.  On a router with a bound adapter, an exception of a class outside
    [Exception] raised by the adapter's call leaves [current_user] as it
    is, with the request unchanged; it is not turned into a 403. *)
Theorem current_user_non_exception_propagates (self : IriRouter)
    (request : Request) (api_key : string) (a : Adapter)
    (ip : option string) (e : PyExc) :
  adapter self = Some a ->
  get_real_ip request = Return ip ->
  get_current_user a api_key ip = Raise e ->
  isinstance_Exception e = false ->
  current_user self request api_key = (request, Raise e).
Proof.
  intros Ha Hip Hr He. unfold current_user.
  rewrite (resolve_user_bound _ _ _ _ _ Ha Hip), Hr. simpl. now rewrite He.
Qed.

Lemma current_user_non_exception_propagates_witness :
  current_user (mkRouter "/status" true (Some Samples.cancelled_adapter))
    Samples.proxied_request "good" =
    (Samples.proxied_request, Raise (NonException "asyncio.CancelledError")).
Proof.
  apply (current_user_non_exception_propagates _ _ _
           Samples.cancelled_adapter (Some "9.9.9.9"));
    reflexivity.
Defined.

(** X7.  When the client address cannot be extracted (no usable header and
    no peer address) the adapter is not consulted: whatever adapter is
    bound, [current_user] raises the 403 and leaves the request
    unchanged. *)
Theorem current_user_without_address (self : IriRouter) (request : Request)
    (api_key : string) :
  falsy_str (headers_get "HTTP_X_REAL_IP" (headers request)) = true ->
  falsy_str (headers_get "x-real-ip" (headers request)) = true ->
  client request = None ->
  current_user self request api_key =
    (request, Raise (HTTPException 403 "Unauthorized access")).
Proof.
  intros H1 H2 Hc. apply current_user_denied. left.
  unfold resolve_user. destruct (adapter self) as [a|].
  - rewrite (get_real_ip_no_client _ H1 H2 Hc). simpl.
    eexists. split; reflexivity.
  - eexists. split; reflexivity.
Qed.

Lemma current_user_without_address_witness :
  current_user (mkRouter "/status" true (Some Samples.demo_adapter))
    MoreSamples.peerless_request "good" =
    (MoreSamples.peerless_request,
     Raise (HTTPException 403 "Unauthorized access")).
Proof.
  apply current_user_without_address; reflexivity.
Defined.

Lemma current_user_frame_witness :
  state (fst (current_user (mkRouter "/status" true (Some Samples.demo_adapter))
                Samples.bare_request "good")) !! "trace_id"
    = state Samples.bare_request !! "trace_id" /\
  fst (current_user (mkRouter "/status" true (Some Samples.demo_adapter))
         Samples.bare_request "stale") = Samples.bare_request.
Proof.
  split.
  - apply (proj1 (proj2 (proj2 (current_user_frame _ _ _))));
      discriminate.
  - apply (proj2 (proj2 (proj2 (current_user_frame _ _ _)))
             (HTTPException 403 "Unauthorized access")).
    reflexivity.
Defined.

(** ** Cutting the locator *)

Lemma rcut_Some (sep : ascii) (s a b : string) :
  rcut sep s = Some (a, b) ->
  s = a +:+ String sep b /\ free_of sep b = true.
Proof.
  revert a. induction s as [|c t IH]; simpl; [discriminate|].
  intros a. destruct (rcut sep t) as [[a' b']|] eqn:Ht.
  - intros H. injection H as <- <-.
    destruct (IH a' eq_refl) as [-> Hb]. split; [reflexivity|exact Hb].
  - destruct (Ascii.eqb c sep) eqn:Hc; [|discriminate].
    intros H. injection H as <- <-. apply Ascii.eqb_eq in Hc as ->.
    split; [reflexivity|].
    clear IH. unfold free_of. induction t as [|d u IHu]; [reflexivity|].
    simpl in Ht. destruct (rcut sep u) as [[? ?]|]; [discriminate|].
    destruct (Ascii.eqb d sep) eqn:Hd; [discriminate|].
    simpl. rewrite Hd. simpl. now apply IHu.
Qed.

Lemma rcut_None (sep : ascii) (s : string) :
  rcut sep s = None -> free_of sep s = true.
Proof.
  unfold free_of. induction s as [|c t IH]; simpl; [reflexivity|].
  destruct (rcut sep t) as [[a b]|]; [discriminate|].
  destruct (Ascii.eqb c sep); [discriminate|].
  intros _. simpl. now apply IH.
Qed.

(** X16.  [rsplit(sep, 1)] loses nothing.  On a string without the
    separator it returns the string alone; otherwise it returns two pieces
    that, put back around one separator, give the string again, and the
    second piece holds no separator: the cut is at the last one. *)
Theorem py_rsplit1_roundtrip (sep : ascii) (s : string) :
  (free_of sep s = true /\ py_rsplit1 sep s = [s]) \/
  (exists a b, py_rsplit1 sep s = [a; b] /\
               s = a +:+ String sep b /\ free_of sep b = true).
Proof.
  unfold py_rsplit1. destruct (rcut sep s) as [[a b]|] eqn:H.
  - right. exists a, b. split; [reflexivity|]. now apply rcut_Some.
  - left. split; [now apply rcut_None | reflexivity].
Qed.

(** ** The group name and its key *)

Lemma py_remove_char_result (c : ascii) (s : string) :
  free_of c (py_remove_char c s) = true.
Proof.
  unfold free_of. induction s as [|d t IH]; simpl; [reflexivity|].
  destruct (Ascii.eqb d c) eqn:Hd; [exact IH|].
  simpl. now rewrite Hd.
Qed.

Lemma str_forallb_append (p : ascii -> bool) (a b : string) :
  str_forallb p (a +:+ b) = str_forallb p a && str_forallb p b.
Proof.
  induction a as [|c t IH]; [reflexivity|].
  simpl. rewrite IH. now rewrite andb_assoc.
Qed.

(** [lstrip] returns the end of its argument, and that end begins with no
    whitespace character. *)
Lemma py_lstrip_suffix (n : nat) (s : string) :
  String.length s <= n ->
  (exists p, s = p +:+ py_lstrip s) /\ ws_width (py_lstrip s) = 0.
Proof.
  revert s. induction n as [|n IH]; intros s Hlen.
  - destruct s; [|simpl in Hlen; lia].
    split; [exists EmptyString|]; reflexivity.
  - destruct s as [|a t]; [split; [exists EmptyString|]; reflexivity|].
    simpl in Hlen. simpl py_lstrip.
    destruct (is_ws1 a) eqn:H1.
    { destruct (IH t ltac:(lia)) as [[p Hp] Hw]. split; [|exact Hw].
      exists (String a p). exact (f_equal (String a) Hp). }
    destruct t as [|b u].
    { split; [exists EmptyString; reflexivity|]. simpl. now rewrite H1. }
    simpl in Hlen. destruct (is_ws2 a b) eqn:H2.
    { destruct (IH u ltac:(lia)) as [[p Hp] Hw]. split; [|exact Hw].
      exists (String a (String b p)).
      exact (f_equal (fun x => String a (String b x)) Hp). }
    destruct u as [|c v].
    { split; [exists EmptyString; reflexivity|]. simpl. now rewrite H1, H2. }
    simpl in Hlen. destruct (is_ws3 a b c) eqn:H3.
    { destruct (IH v ltac:(lia)) as [[p Hp] Hw]. split; [|exact Hw].
      exists (String a (String b (String c p))).
      exact (f_equal (fun x => String a (String b (String c x))) Hp). }
    split; [exists EmptyString; reflexivity|].
    simpl. now rewrite H1, H2, H3.
Qed.

(** [rstrip] returns the beginning of its argument. *)
Lemma py_rstrip_prefix (s : string) :
  exists q, s = py_rstrip s +:+ q.
Proof.
  induction s as [|c t [q Hq]]; [exists EmptyString; reflexivity|].
  rewrite py_rstrip_cons.
  destruct (is_ws_char (String c (py_rstrip t))).
  - exists (String c t). reflexivity.
  - exists q. exact (f_equal (String c) Hq).
Qed.

(** The beginning of a string that begins with no whitespace character
    begins with none either. *)
Lemma ws_width_prefix (p q : string) :
  ws_width (p +:+ q) = 0 -> ws_width p = 0.
Proof.
  destruct p as [|a [|b [|c v]]]; simpl; try reflexivity.
  - destruct (is_ws1 a); [discriminate | reflexivity].
  - destruct (is_ws1 a); [discriminate|].
    destruct (is_ws2 a b); [discriminate | reflexivity].
  - destruct (is_ws1 a); [discriminate|].
    destruct (is_ws2 a b); [discriminate|].
    destruct (is_ws3 a b c); [discriminate | reflexivity].
Qed.

Lemma py_rstrip_idempotent (s : string) :
  py_rstrip (py_rstrip s) = py_rstrip s.
Proof.
  induction s as [|d t IH]; [reflexivity|].
  rewrite py_rstrip_cons.
  destruct (is_ws_char (String d (py_rstrip t))) eqn:H; [reflexivity|].
  rewrite py_rstrip_cons, IH. now rewrite H.
Qed.

Lemma py_strip_ws_width (s : string) :
  ws_width (py_strip s) = 0.
Proof.
  unfold py_strip.
  destruct (py_lstrip_suffix (String.length s) s (le_n _)) as [_ Hw].
  destruct (py_rstrip_prefix (py_lstrip s)) as [q Hq].
  apply (ws_width_prefix _ q). now rewrite <- Hq.
Qed.

Lemma py_strip_idempotent (s : string) :
  py_strip (py_strip s) = py_strip s.
Proof.
  unfold py_strip at 1.
  rewrite (py_lstrip_ws_width _ (py_strip_ws_width s)).
  unfold py_strip. apply py_rstrip_idempotent.
Qed.

(** X17.  The group name never holds a path separator and never begins or
    ends with whitespace: no whitespace character stands at its front, and
    stripping it again, at the end or on both sides, changes nothing. *)
Theorem router_name_normal (self : IriRouter) :
  free_of "/" (router_name self) = true /\
  py_strip (router_name self) = router_name self /\
  py_remove_char "/" (router_name self) = router_name self /\
  ws_width (router_name self) = 0 /\
  py_rstrip (router_name self) = router_name self.
Proof.
  assert (H : free_of "/" (router_name self) = true).
  { unfold router_name, py_strip, free_of.
    pose proof (py_remove_char_result "/" (prefix self)) as Hr.
    unfold free_of in Hr.
    destruct (py_lstrip_suffix _ (py_remove_char "/" (prefix self)) (le_n _))
      as [[p Hp] _].
    destruct (py_rstrip_prefix (py_lstrip (py_remove_char "/" (prefix self))))
      as [q Hq].
    rewrite Hp, str_forallb_append in Hr. apply andb_prop in Hr as [_ Hr].
    rewrite Hq, str_forallb_append in Hr. now apply andb_prop in Hr as [Hr _]. }
  split; [exact H|]. split; [apply py_strip_idempotent|].
  split; [now apply py_remove_char_free_of|].
  split; [apply py_strip_ws_width|].
  unfold router_name, py_strip. apply py_rstrip_idempotent.
Qed.

Lemma py_remove_char_append (c : ascii) (a b : string) :
  py_remove_char c (a +:+ b) = py_remove_char c a +:+ py_remove_char c b.
Proof.
  induction a as [|d t IH]; simpl; [reflexivity|].
  destruct (Ascii.eqb d c); simpl; now rewrite IH.
Qed.

(** X18.  Path separators inside the prefix do not count: two routers
    whose prefixes differ only by a separator, [/a/b] and [/ab] say, read
    the same per-group variable. *)
Theorem env_var_ignores_separators (a b : string) (v v' : bool)
    (ad ad' : option Adapter) :
  env_var (mkRouter (a +:+ String "/" b) v ad)
    = env_var (mkRouter (a +:+ b) v' ad').
Proof.
  unfold env_var, router_name. simpl.
  rewrite !py_remove_char_append. simpl. reflexivity.
Qed.

(** ** Adapter binding, completed *)

Lemma load_adapter_split (mods : gmap string (gmap string PyObj))
    (adapter_name : string) (router_adapter : PyObj) :
  load_adapter mods adapter_name router_adapter =
    (AdapterClass ← load_class mods adapter_name router_adapter;
     py_call AdapterClass []).
Proof.
  unfold load_adapter, load_class.
  destruct (py_index (py_rsplit1 "." adapter_name) 0) as [p0|]; cbn;
    [|reflexivity].
  destruct (import_module mods p0) as [md|]; cbn; [|reflexivity].
  destruct (py_index (py_rsplit1 "." adapter_name) 1) as [p1|]; cbn;
    [|reflexivity].
  destruct (module_getattr md p1) as [o|]; cbn; [|reflexivity].
  destruct (issubclass o router_adapter) as [[|]|]; reflexivity.
Qed.

Lemma import_module_Return (mods : gmap string (gmap string PyObj))
    (m : string) (md : gmap string PyObj) :
  import_module mods m = Return md ->
  mods !! m = Some md /\ m <> EmptyString /\ py_startswith "." m = false.
Proof.
  unfold import_module.
  destruct (py_startswith "." m); [discriminate|].
  destruct (String.eqb m EmptyString) eqn:Hm; [discriminate|].
  destruct (mods !! m) as [md'|]; [|discriminate].
  intros H. injection H as <-. apply String.eqb_neq in Hm. auto.
Qed.

Lemma issubclass_tuple_cons (a x : PyObj) (rest : list PyObj) :
  issubclass a (OTuple (x :: rest)) =
    match issubclass a x with
    | Return true => Return true
    | Return false => issubclass a (OTuple rest)
    | Raise e => Raise e
    end.
Proof. reflexivity. Qed.

Lemma contract_leaves_cons (x : PyObj) (rest : list PyObj) :
  contract_leaves (OTuple (x :: rest))
    = (contract_leaves x ++ contract_leaves (OTuple rest))%list.
Proof. reflexivity. Qed.

(** With a first argument that is not a class [issubclass] fails at the
    first class or value of the contract, and says no when there is
    none. *)
Lemma issubclass_non_class (a b : PyObj) :
  (forall c, a <> OClass c) ->
  issubclass a b =
    match contract_leaves b with
    | [] => Return false
    | _ :: _ => Raise (TypeError "issubclass() arg 1 must be a class")
    end.
Proof.
  intros Ha. induction b as [d|v|items IH] using PyObj_tuple_ind.
  - destruct a as [c| |]; [now destruct (Ha c) | reflexivity..].
  - destruct a as [c| |]; [now destruct (Ha c) | reflexivity..].
  - induction IH as [|x rest Hx _ IHrest]; [reflexivity|].
    rewrite issubclass_tuple_cons, contract_leaves_cons, Hx, IHrest.
    destruct (contract_leaves x); reflexivity.
Qed.

(** A yes of [issubclass] comes from a class of the contract. *)
Lemma issubclass_true_inv (C : PyClass) (b : PyObj) :
  issubclass (OClass C) b = Return true ->
  exists D, In (OClass D) (contract_leaves b) /\
            existsb (String.eqb (cls_name D)) (cls_subclass_of C) = true.
Proof.
  induction b as [d|v|items IH] using PyObj_tuple_ind.
  - simpl. intros H. injection H as H. exists d. auto.
  - discriminate.
  - induction IH as [|x rest Hx _ IHrest]; [discriminate|].
    rewrite issubclass_tuple_cons, contract_leaves_cons.
    destruct (issubclass (OClass C) x) as [[|]|e]; [| |discriminate].
    + intros _. destruct (Hx eq_refl) as (D & Hin & HD).
      exists D. split; [apply in_or_app; now left | exact HD].
    + intros H. destruct (IHrest H) as (D & Hin & HD).
      exists D. split; [apply in_or_app; now right | exact HD].
Qed.

(** Against a contract that holds no class [issubclass] never says yes. *)
Lemma issubclass_needs_class (a b : PyObj) :
  holds_class b = false -> issubclass a b <> Return true.
Proof.
  intros Hb H. destruct a as [C|v|items].
  - apply issubclass_true_inv in H as (D & Hin & _).
    apply not_true_iff_false in Hb. apply Hb.
    apply existsb_exists. exists (OClass D). auto.
  - rewrite issubclass_non_class in H by discriminate.
    destruct (contract_leaves b); discriminate.
  - rewrite issubclass_non_class in H by discriminate.
    destruct (contract_leaves b); discriminate.
Qed.

(** What a successful [load_class] went through. *)
Lemma load_class_Return (mods : gmap string (gmap string PyObj))
    (adapter_name : string) (router_adapter o : PyObj) :
  load_class mods adapter_name router_adapter = Return o ->
  exists m s md,
    adapter_name = m +:+ String "." s /\ free_of "." s = true /\
    mods !! m = Some md /\ m <> EmptyString /\
    py_startswith "." m = false /\
    md !! s = Some o /\
    issubclass o router_adapter = Return true.
Proof.
  unfold load_class, py_rsplit1.
  destruct (rcut "." adapter_name) as [[m s]|] eqn:Hcut; cbn.
  - destruct (import_module mods m) as [md|] eqn:Himp; cbn; [|discriminate].
    unfold module_getattr. destruct (md !! s) as [o'|] eqn:Hget; cbn;
      [|discriminate].
    destruct (issubclass o' router_adapter) as [[|]|e] eqn:Hsub; cbn;
      try discriminate.
    intros H. injection H as <-.
    destruct (rcut_Some _ _ _ _ Hcut) as [Hn Hs].
    destruct (import_module_Return _ _ _ Himp) as (Hm & Hne & Hrel).
    exists m, s, md. auto 10.
  - destruct (import_module mods adapter_name); discriminate.
Qed.

(** The three ways [create_adapter] can end. *)
Lemma create_adapter_cases (environ : gmap string string)
    (mods : gmap string (gmap string PyObj))
    (self : IriRouter) (router_adapter : PyObj) :
  (environ !! env_var self = None /\ show_missing_routes environ = false /\
   create_adapter environ mods self router_adapter =
     (set_include_in_schema false self, Return tt)) \/
  (exists inst,
     load_adapter mods
       (default "app.demo_adapter.DemoAdapter" (environ !! env_var self))
       router_adapter = Return inst /\
     create_adapter environ mods self router_adapter =
       (set_adapter inst self, Return tt)) \/
  (exists e,
     load_adapter mods
       (default "app.demo_adapter.DemoAdapter" (environ !! env_var self))
       router_adapter = Raise e /\
     create_adapter environ mods self router_adapter = (self, Raise e)).
Proof.
  unfold create_adapter, env_has.
  destruct (environ !! env_var self) as [loc|] eqn:He; simpl.
  - destruct (load_adapter mods loc router_adapter) as [inst|e].
    + right. left. exists inst. auto.
    + right. right. exists e. auto.
  - destruct (show_missing_routes environ); simpl.
    + destruct (load_adapter mods "app.demo_adapter.DemoAdapter"
                  router_adapter) as [inst|e].
      * right. left. exists inst. auto.
      * right. right. exists e. auto.
    + left. auto.
Qed.

(** X8.  [create_adapter] never changes the prefix, never turns
    [include_in_schema] on (a router built hidden stays hidden whatever
    the environment says), and when it raises it leaves the router exactly
    as it found it. *)
Theorem create_adapter_frame (environ : gmap string string)
    (mods : gmap string (gmap string PyObj))
    (self : IriRouter) (router_adapter : PyObj) :
  prefix (fst (create_adapter environ mods self router_adapter))
    = prefix self /\
  (include_in_schema (fst (create_adapter environ mods self router_adapter))
     = true -> include_in_schema self = true) /\
  (forall e,
     snd (create_adapter environ mods self router_adapter) = Raise e ->
     fst (create_adapter environ mods self router_adapter) = self).
Proof.
  destruct (create_adapter_cases environ mods self router_adapter)
    as [(_ & _ & ->) | [(inst & _ & ->) | (e & _ & ->)]]; simpl;
    repeat split; auto; discriminate.
Qed.

Lemma create_adapter_frame_witness :
  fst (create_adapter Samples.env_no_module Samples.modules
         Samples.status_router (OClass Samples.FacilityAdapter))
    = Samples.status_router /\
  include_in_schema Samples.status_router = true.
Proof.
  split.
  - apply (proj2 (proj2 (create_adapter_frame Samples.env_no_module
                           Samples.modules Samples.status_router
                           (OClass Samples.FacilityAdapter)))
             (ModuleNotFoundError "vendor.nope")).
    reflexivity.
  - apply (proj1 (proj2 (create_adapter_frame MoreSamples.env_demo
                           Samples.modules Samples.status_router
                           (OClass Samples.FacilityAdapter)))).
    reflexivity.
Defined.

(** X9.  Every router that the constructor returns and that is visible in
    the schema has an adapter bound; put the other way round, a constructed
    router without an adapter is hidden.  The constructed router keeps the
    prefix it was given. *)
Theorem visible_router_has_adapter (environ : gmap string string)
    (mods : gmap string (gmap string PyObj)) (router_adapter : PyObj)
    (kw : Kwargs) (self : IriRouter) :
  IriRouter_init environ mods router_adapter kw = Return self ->
  prefix self = kw_prefix kw /\
  (include_in_schema self = true -> exists a, adapter self = Some a) /\
  (adapter self = None -> include_in_schema self = false).
Proof.
  unfold IriRouter_init.
  destruct (APIRouter_init kw) as [self0|] eqn:Hk; cbn; [|discriminate].
  destruct (APIRouter_init_fields _ _ Hk) as (Hp & _ & _).
  destruct (create_adapter_cases environ mods self0 router_adapter)
    as [(_ & _ & ->) | [(inst & _ & ->) | (e & _ & ->)]]; cbn;
    try discriminate; intros H; injection H as <-; simpl;
    (split; [exact Hp|]); split; try discriminate; eauto.
Qed.

Lemma visible_router_has_adapter_witness :
  exists a,
    adapter (mkRouter "/status" true (Some Samples.demo_adapter)) = Some a.
Proof.
  assert (H : IriRouter_init MoreSamples.env_demo Samples.modules
                (OClass Samples.FacilityAdapter) Samples.status_kwargs
              = Return (mkRouter "/status" true (Some Samples.demo_adapter)))
    by reflexivity.
  apply (proj1 (proj2 (visible_router_has_adapter _ _ _ _ _ H))).
  reflexivity.
Defined.

(** X10.  A per-group entry decides alone.  Once the group's variable is
    set, the show-missing flag plays no part: two environments that give
    the variable the same value lead [create_adapter] to the same result,
    and that result never touches [include_in_schema]. *)
Theorem configured_group_ignores_flag (environ environ' : gmap string string)
    (mods : gmap string (gmap string PyObj))
    (self : IriRouter) (router_adapter : PyObj) (locator : string) :
  environ !! env_var self = Some locator ->
  environ' !! env_var self = Some locator ->
  create_adapter environ mods self router_adapter
    = create_adapter environ' mods self router_adapter /\
  include_in_schema (fst (create_adapter environ mods self router_adapter))
    = include_in_schema self.
Proof.
  intros H H'.
  rewrite (create_adapter_configured _ _ _ _ _ H).
  rewrite (create_adapter_configured _ _ _ _ _ H').
  split; [reflexivity|].
  destruct (load_adapter mods locator router_adapter); reflexivity.
Qed.

Lemma configured_group_ignores_flag_witness :
  create_adapter MoreSamples.env_demo Samples.modules Samples.status_router
    (OClass Samples.FacilityAdapter)
    = create_adapter MoreSamples.env_demo_flag_off Samples.modules
        Samples.status_router (OClass Samples.FacilityAdapter).
Proof.
  apply (configured_group_ignores_flag MoreSamples.env_demo
           MoreSamples.env_demo_flag_off Samples.modules
           Samples.status_router (OClass Samples.FacilityAdapter)
           "app.demo_adapter.DemoAdapter"); reflexivity.
Defined.

(** X11.  A configured locator without a ["."] never binds an adapter.
    The whole string is taken as the module path; if the import fails its
    exception comes out, and if it succeeds the missing symbol name makes
    the list access fail with [IndexError].  An empty entry, in
    particular, is not treated as a missing one: it fails with the
    [ValueError] of the empty module name. *)
Theorem dotless_locator_is_fatal (environ : gmap string string)
    (mods : gmap string (gmap string PyObj))
    (self : IriRouter) (router_adapter : PyObj) (locator : string) :
  environ !! env_var self = Some locator ->
  free_of "." locator = true ->
  create_adapter environ mods self router_adapter =
    (self,
     Raise match import_module mods locator with
           | Raise e => e
           | Return _ => IndexError "list index out of range"
           end) /\
  (locator = EmptyString ->
   create_adapter environ mods self router_adapter =
     (self, Raise (ValueError "Empty module name"))).
Proof.
  intros He Hf.
  assert (Hc : create_adapter environ mods self router_adapter =
    (self,
     Raise match import_module mods locator with
           | Raise e => e
           | Return _ => IndexError "list index out of range"
           end)).
  { rewrite (create_adapter_configured _ _ _ _ _ He).
    unfold load_adapter, py_rsplit1. rewrite (rcut_free_of _ _ Hf). cbn.
    destruct (import_module mods locator); reflexivity. }
  split; [exact Hc|]. intros ->. exact Hc.
Qed.

Lemma dotless_locator_is_fatal_witness :
  create_adapter MoreSamples.env_dotless MoreSamples.modules
    Samples.status_router (OClass Samples.FacilityAdapter)
    = (Samples.status_router, Raise (IndexError "list index out of range")) /\
  create_adapter MoreSamples.env_empty_entry MoreSamples.modules
    Samples.status_router (OClass Samples.FacilityAdapter)
    = (Samples.status_router, Raise (ValueError "Empty module name")).
Proof.
  split.
  - apply (proj1 (dotless_locator_is_fatal MoreSamples.env_dotless
                    MoreSamples.modules Samples.status_router
                    (OClass Samples.FacilityAdapter) "toplevel"
                    eq_refl eq_refl)).
  - apply (proj2 (dotless_locator_is_fatal MoreSamples.env_empty_entry
                    MoreSamples.modules Samples.status_router
                    (OClass Samples.FacilityAdapter) EmptyString
                    eq_refl eq_refl)).
    reflexivity.
Defined.

(** X12.  When the symbol the locator names is not a class (a module-level
    constant, say) [create_adapter] binds nothing.  The subclass check
    itself fails with [TypeError] whatever contract was asked for, be it a
    class, a plain value or a tuple holding one; only against a contract
    that holds nothing at all (an empty tuple) does the check say no, and
    the exception is then the one of a failed check. *)
Theorem non_class_symbol_is_fatal (environ : gmap string string)
    (mods : gmap string (gmap string PyObj)) (self : IriRouter)
    (router_adapter : PyObj) (locator m s : string)
    (md : gmap string PyObj) (v : PyVal) :
  environ !! env_var self = Some locator ->
  py_rsplit1 "." locator = [m; s] ->
  import_module mods m = Return md ->
  md !! s = Some (OValue v) ->
  create_adapter environ mods self router_adapter =
    (self,
     Raise match contract_leaves router_adapter with
           | _ :: _ => TypeError "issubclass() arg 1 must be a class"
           | [] => PlainException
                     (locator +:+ " should implement FacilityAdapter")
           end).
Proof.
  intros He Hsplit Himp Hget.
  rewrite (create_adapter_configured _ _ _ _ _ He).
  rewrite (load_adapter_found _ _ _ _ _ _ _ Hsplit Himp Hget).
  rewrite issubclass_non_class by discriminate.
  destruct (contract_leaves router_adapter); reflexivity.
Qed.

Lemma non_class_symbol_is_fatal_witness :
  create_adapter MoreSamples.env_constant Samples.modules
    Samples.status_router (OClass Samples.FacilityAdapter)
    = (Samples.status_router,
       Raise (TypeError "issubclass() arg 1 must be a class")).
Proof.
  apply (non_class_symbol_is_fatal MoreSamples.env_constant Samples.modules
           Samples.status_router (OClass Samples.FacilityAdapter)
           "vendor.tools.VERSION" "vendor.tools" "VERSION"
           Samples.tools_module (VStr "1.0"));
    reflexivity.
Defined.

Lemma load_adapter_needs_contract (mods : gmap string (gmap string PyObj))
    (adapter_name : string) (router_adapter : PyObj) :
  holds_class router_adapter = false ->
  exists e, load_adapter mods adapter_name router_adapter = Raise e.
Proof.
  intros Hb. rewrite load_adapter_split.
  destruct (load_class mods adapter_name router_adapter) as [o|e] eqn:H;
    [|eauto].
  apply load_class_Return in H as (m & s & md & H).
  destruct H as (_ & _ & _ & _ & _ & _ & H).
  now apply issubclass_needs_class in H.
Qed.

(** X13.  A router built with a contract that holds no class never gets an
    adapter.  That is so for the default [router_adapter=None], for any
    string, number or boolean, and for a tuple of such values or an empty
    one: [create_adapter] leaves the [adapter] attribute alone, returns
    normally only on the hiding path, and raises for every configured
    group. *)
Theorem missing_contract_never_binds (environ : gmap string string)
    (mods : gmap string (gmap string PyObj)) (self : IriRouter)
    (router_adapter : PyObj) :
  holds_class router_adapter = false ->
  adapter (fst (create_adapter environ mods self router_adapter))
    = adapter self /\
  (snd (create_adapter environ mods self router_adapter) = Return tt ->
   environ !! env_var self = None /\ show_missing_routes environ = false) /\
  (forall locator, environ !! env_var self = Some locator ->
     exists e,
       create_adapter environ mods self router_adapter = (self, Raise e)).
Proof.
  intros Hb.
  pose proof (fun loc => load_adapter_needs_contract mods loc _ Hb) as Hl.
  split; [|split].
  - destruct (create_adapter_cases environ mods self router_adapter)
      as [(_ & _ & ->) | [(inst & Hi & _) | (e & _ & ->)]];
      try reflexivity.
    destruct (Hl (default "app.demo_adapter.DemoAdapter"
                    (environ !! env_var self))) as [e He].
    rewrite He in Hi. discriminate.
  - destruct (create_adapter_cases environ mods self router_adapter)
      as [(H1 & H2 & _) | [(inst & Hi & _) | (e & _ & ->)]];
      [auto | | discriminate].
    destruct (Hl (default "app.demo_adapter.DemoAdapter"
                    (environ !! env_var self))) as [e He].
    rewrite He in Hi. discriminate.
  - intros locator He. rewrite (create_adapter_configured _ _ _ _ _ He).
    destruct (Hl locator) as [e ->]. eauto.
Qed.

Lemma missing_contract_never_binds_witness :
  (exists e,
     create_adapter MoreSamples.env_demo Samples.modules Samples.status_router
       (OValue VNone) = (Samples.status_router, Raise e)) /\
  (exists e,
     create_adapter MoreSamples.env_demo Samples.modules Samples.status_router
       (OTuple [OValue (VStr "FacilityAdapter"); OTuple []])
       = (Samples.status_router, Raise e)).
Proof.
  split.
  - apply (proj2 (proj2 (missing_contract_never_binds MoreSamples.env_demo
                           Samples.modules Samples.status_router
                           (OValue VNone) eq_refl))
             "app.demo_adapter.DemoAdapter").
    reflexivity.
  - apply (proj2 (proj2 (missing_contract_never_binds MoreSamples.env_demo
                           Samples.modules Samples.status_router
                           (OTuple [OValue (VStr "FacilityAdapter"); OTuple []])
                           eq_refl))
             "app.demo_adapter.DemoAdapter").
    reflexivity.
Defined.

(** X14.  The subclass check does not look at abstract methods.  A class
    that derives from the contract but leaves an operation abstract passes
    the check and then cannot be called: [create_adapter] raises
    [TypeError] and binds nothing. *)
Theorem abstract_adapter_is_fatal (environ : gmap string string)
    (mods : gmap string (gmap string PyObj)) (self : IriRouter)
    (locator m s : string) (md : gmap string PyObj) (C D : PyClass) :
  environ !! env_var self = Some locator ->
  py_rsplit1 "." locator = [m; s] ->
  import_module mods m = Return md ->
  md !! s = Some (OClass C) ->
  issubclass (OClass C) (OClass D) = Return true ->
  cls_abstractmethods C <> [] ->
  exists msg,
    create_adapter environ mods self (OClass D) = (self, Raise (TypeError msg)).
Proof.
  intros He Hsplit Himp Hget Hsub Habs.
  rewrite (create_adapter_configured _ _ _ _ _ He).
  rewrite (load_adapter_found _ _ _ _ _ _ _ Hsplit Himp Hget).
  rewrite Hsub. cbn.
  destruct (cls_abstractmethods C) as [|x xs]; [congruence|]. eauto.
Qed.

Lemma abstract_adapter_is_fatal_witness :
  exists msg,
    create_adapter MoreSamples.env_half MoreSamples.modules
      Samples.status_router (OClass Samples.FacilityAdapter)
      = (Samples.status_router, Raise (TypeError msg)).
Proof.
  apply (abstract_adapter_is_fatal MoreSamples.env_half MoreSamples.modules
           Samples.status_router "vendor.half.HalfAdapter" "vendor.half"
           "HalfAdapter" MoreSamples.half_module MoreSamples.HalfAdapter
           Samples.FacilityAdapter);
    try reflexivity.
  discriminate.
Defined.

(** X15.  Where a constructed router's adapter comes from.  If the
    constructor returns a router with an adapter, then the locator in use
    (the group's entry, or the default one when there is none and missing
    routes are shown) has the form [module.Symbol]; the module is
    importable and holds a class under that symbol; the subclass check of
    that class against the contract said yes, so that the contract holds a
    class the loaded class counts as a subclass of; the loaded class has
    no abstract method left; and the adapter is what that class's
    initialiser returned for an empty argument list. *)
Theorem bound_adapter_provenance (environ : gmap string string)
    (mods : gmap string (gmap string PyObj)) (router_adapter : PyObj)
    (kw : Kwargs) (self : IriRouter) (inst : Adapter) :
  IriRouter_init environ mods router_adapter kw = Return self ->
  adapter self = Some inst ->
  exists m s md C D,
    default "app.demo_adapter.DemoAdapter" (environ !! env_var self)
      = m +:+ String "." s /\
    free_of "." s = true /\
    mods !! m = Some md /\
    md !! s = Some (OClass C) /\
    issubclass (OClass C) router_adapter = Return true /\
    In (OClass D) (contract_leaves router_adapter) /\
    existsb (String.eqb (cls_name D)) (cls_subclass_of C) = true /\
    cls_abstractmethods C = [] /\
    cls_init C [] = Return inst /\
    (environ !! env_var self = None -> show_missing_routes environ = true).
Proof.
  unfold IriRouter_init.
  destruct (APIRouter_init kw) as [self0|] eqn:Hk; cbn; [|discriminate].
  destruct (APIRouter_init_fields _ _ Hk) as (_ & _ & Ha0).
  destruct (create_adapter_cases environ mods self0 router_adapter)
    as [(_ & _ & Hc) | [(inst' & Hl & Hc) | (e & _ & Hc)]];
    rewrite Hc; cbn; try discriminate.
  - intros H. injection H as <-. simpl. rewrite Ha0. discriminate.
  - intros H. injection H as <-. simpl. intros H. injection H as ->.
    change (env_var (set_adapter inst self0)) with (env_var self0).
    rewrite load_adapter_split in Hl.
    destruct (load_class mods
                (default "app.demo_adapter.DemoAdapter"
                   (environ !! env_var self0)) router_adapter)
      as [o|] eqn:Ho; cbn in Hl; [|discriminate].
    apply load_class_Return in Ho
      as (m & s & md & Hn & Hs & Hm & _ & _ & Hg & Hsub).
    destruct o as [C|v|items]; [|discriminate..].
    cbn in Hl.
    destruct (cls_abstractmethods C) as [|x xs] eqn:Habs; [|discriminate].
    destruct (issubclass_true_inv _ _ Hsub) as (D & Hin & HD).
    exists m, s, md, C, D. repeat split; auto.
    intros He. destruct (show_missing_routes environ) eqn:Hs'; [reflexivity|].
    rewrite (create_adapter_hidden _ mods _ router_adapter He Hs') in Hc.
    apply (f_equal (fun p => adapter (fst p))) in Hc. simpl in Hc.
    rewrite Ha0 in Hc. discriminate.
Qed.

Lemma bound_adapter_provenance_witness :
  exists m s md C D,
    "app.demo_adapter.DemoAdapter" = m +:+ String "." s /\
    free_of "." s = true /\
    Samples.modules !! m = Some md /\
    md !! s = Some (OClass C) /\
    In (OClass D)
      (contract_leaves
         (OTuple [OClass Samples.Unrelated; OClass Samples.FacilityAdapter])) /\
    existsb (String.eqb (cls_name D)) (cls_subclass_of C) = true /\
    cls_abstractmethods C = [] /\
    cls_init C [] = Return Samples.demo_adapter.
Proof.
  destruct (bound_adapter_provenance MoreSamples.env_demo Samples.modules
              (OTuple [OClass Samples.Unrelated; OClass Samples.FacilityAdapter])
              Samples.status_kwargs
              (mkRouter "/status" true (Some Samples.demo_adapter))
              Samples.demo_adapter eq_refl eq_refl)
    as (m & s & md & C & D & H1 & H2 & H3 & H4 & _ & H5 & H6 & H7 & H8 & _).
  exists m, s, md, C, D. auto 10.
Defined.

(** ** What is logged *)

Lemma create_adapter_logged_result (environ : gmap string string)
    (mods : gmap string (gmap string PyObj))
    (self : IriRouter) (router_adapter : PyObj) :
  snd (create_adapter_logged environ mods self router_adapter)
    = create_adapter environ mods self router_adapter.
Proof.
  unfold create_adapter_logged, create_adapter.
  destruct (negb (env_has environ (env_var self))
            && negb (show_missing_routes environ)); [reflexivity|].
  rewrite load_adapter_split.
  destruct (load_class mods _ router_adapter) as [o|e]; cbn; [|reflexivity].
  destruct (py_call o []); reflexivity.
Qed.

(** X19.  The log tells what [create_adapter] did.  Its first record
    always names the variable consulted.  On the hiding path the only
    other record is the hiding notice.  And whenever [create_adapter]
    raises, the record naming the locator in use has been logged before. *)
Theorem create_adapter_log_trail (environ : gmap string string)
    (mods : gmap string (gmap string PyObj))
    (self : IriRouter) (router_adapter : PyObj) :
  (exists rest,
     fst (create_adapter_logged environ mods self router_adapter)
       = (INFO, "Loading adapter from " +:+ env_var self) :: rest) /\
  (environ !! env_var self = None -> show_missing_routes environ = false ->
   fst (create_adapter_logged environ mods self router_adapter)
     = [(INFO, "Loading adapter from " +:+ env_var self);
        (INFO, "Hiding route: " +:+ router_name self)]) /\
  (forall e,
     snd (create_adapter environ mods self router_adapter) = Raise e ->
     exists rest,
       fst (create_adapter_logged environ mods self router_adapter)
         = (INFO, "Loading adapter from " +:+ env_var self)
           :: (INFO, "Using " +:+ router_name self +:+ " adapter: "
                       +:+ default "app.demo_adapter.DemoAdapter"
                             (environ !! env_var self))
           :: rest).
Proof.
  split; [|split].
  - unfold create_adapter_logged.
    destruct (negb (env_has environ (env_var self))
              && negb (show_missing_routes environ)); [eexists; reflexivity|].
    destruct (load_class mods _ router_adapter) as [o|e];
      [|eexists; reflexivity].
    destruct (py_call o []); eexists; reflexivity.
  - intros He Hs. unfold create_adapter_logged.
    now rewrite (env_has_false _ _ He), Hs.
  - intros e. rewrite <- create_adapter_logged_result.
    unfold create_adapter_logged.
    destruct (negb (env_has environ (env_var self))
              && negb (show_missing_routes environ)); [discriminate|].
    destruct (load_class mods _ router_adapter) as [o|e'];
      [|eexists; reflexivity].
    destruct (py_call o []); eexists; reflexivity.
Qed.

Lemma create_adapter_log_trail_witness :
  fst (create_adapter_logged ∅ Samples.modules Samples.status_router
         (OClass Samples.FacilityAdapter))
    = [(INFO, "Loading adapter from IRI_API_ADAPTER_status");
       (INFO, "Hiding route: status")] /\
  exists rest,
    fst (create_adapter_logged Samples.env_no_module Samples.modules
           Samples.status_router (OClass Samples.FacilityAdapter))
      = (INFO, "Loading adapter from IRI_API_ADAPTER_status")
        :: (INFO, "Using status adapter: vendor.nope.Missing") :: rest.
Proof.
  split.
  - apply (proj1 (proj2 (create_adapter_log_trail ∅ Samples.modules
                           Samples.status_router
                           (OClass Samples.FacilityAdapter))));
      reflexivity.
  - apply (proj2 (proj2 (create_adapter_log_trail Samples.env_no_module
                           Samples.modules Samples.status_router
                           (OClass Samples.FacilityAdapter)))
             (ModuleNotFoundError "vendor.nope")).
    reflexivity.
Defined.

(** X20.  The success record is written before the class is called.  When
    the loaded class passes the subclass check and its call then fails,
    the log ends with the line announcing a successfully loaded adapter
    although [create_adapter] raises and binds nothing. *)
Theorem success_logged_before_instantiation (environ : gmap string string)
    (mods : gmap string (gmap string PyObj)) (self : IriRouter)
    (router_adapter o : PyObj) (locator : string) (e : PyExc) :
  environ !! env_var self = Some locator ->
  load_class mods locator router_adapter = Return o ->
  py_call o [] = Raise e ->
  create_adapter_logged environ mods self router_adapter =
    ([(INFO, "Loading adapter from " +:+ env_var self);
      (INFO, "Using " +:+ router_name self +:+ " adapter: " +:+ locator);
      (INFO, String (ascii_of_nat 9)
               ("Successfully loaded " +:+ router_name self +:+ " adapter."))],
     (self, Raise e)).
Proof.
  intros He Hl Hc. unfold create_adapter_logged, env_has.
  rewrite He. cbn. rewrite Hl, Hc. reflexivity.
Qed.

Lemma success_logged_before_instantiation_witness :
  create_adapter_logged MoreSamples.env_half MoreSamples.modules
    Samples.status_router (OClass Samples.FacilityAdapter) =
    ([(INFO, "Loading adapter from IRI_API_ADAPTER_status");
      (INFO, "Using status adapter: vendor.half.HalfAdapter");
      (INFO, String (ascii_of_nat 9) "Successfully loaded status adapter.")],
     (Samples.status_router,
      Raise (TypeError "Can't instantiate abstract class"))).
Proof.
  apply (success_logged_before_instantiation MoreSamples.env_half
           MoreSamples.modules Samples.status_router
           (OClass Samples.FacilityAdapter) (OClass MoreSamples.HalfAdapter)
           "vendor.half.HalfAdapter"
           (TypeError "Can't instantiate abstract class"));
    reflexivity.
Defined.

Lemma current_user_logged_result (exc_str : PyExc -> string)
    (self : IriRouter) (request : Request) (api_key : string) :
  snd (current_user_logged exc_str self request api_key)
    = current_user self request api_key.
Proof.
  unfold current_user_logged, current_user, try_except_Exception.
  destruct (resolve_user self request api_key) as [v|e].
  - destruct (negb (truthy v)); reflexivity.
  - destruct (isinstance_Exception e); reflexivity.
Qed.

(** X21.  [current_user] logs at most one record, and only for a caught
    exception: an error record made of the fixed text
    [Error parsing IRI_API_PARAMS: ] and the exception's text.  A denial
    caused by an empty or falsy user id, a successful authentication and
    an exception that is let through leave no record. *)
Theorem current_user_log (exc_str : PyExc -> string)
    (self : IriRouter) (request : Request) (api_key : string) :
  (forall e, resolve_user self request api_key = Raise e ->
             isinstance_Exception e = true ->
     current_user_logged exc_str self request api_key =
       ([(ERROR, "Error parsing IRI_API_PARAMS: " +:+ exc_str e)],
        (request, Raise (HTTPException 403 "Unauthorized access")))) /\
  (forall e, resolve_user self request api_key = Raise e ->
             isinstance_Exception e = false ->
     current_user_logged exc_str self request api_key
       = ([], (request, Raise e))) /\
  (forall v, resolve_user self request api_key = Return v ->
     fst (current_user_logged exc_str self request api_key) = []).
Proof.
  unfold current_user_logged. split; [|split].
  - intros e -> ->. reflexivity.
  - intros e -> ->. reflexivity.
  - intros v ->. destruct (negb (truthy v)); reflexivity.
Qed.

Lemma current_user_log_witness :
  current_user_logged MoreSamples.sample_exc_str
    (mkRouter "/status" true (Some Samples.failing_adapter))
    Samples.bare_request "good" =
    ([(ERROR, "Error parsing IRI_API_PARAMS: backend down")],
     (Samples.bare_request, Raise (HTTPException 403 "Unauthorized access"))) /\
  fst (current_user_logged MoreSamples.sample_exc_str
         (mkRouter "/status" true (Some Samples.demo_adapter))
         Samples.bare_request "stale") = [].
Proof.
  split.
  - apply (proj1 (current_user_log MoreSamples.sample_exc_str
                    (mkRouter "/status" true (Some Samples.failing_adapter))
                    Samples.bare_request "good")
             (OtherException "ConnectionError" "backend down"));
      reflexivity.
  - apply (proj2 (proj2 (current_user_log MoreSamples.sample_exc_str
                           (mkRouter "/status" true (Some Samples.demo_adapter))
                           Samples.bare_request "stale"))
             (VStr EmptyString)).
    reflexivity.
Defined.

(** X22.  Showing missing routes needs the default adapter.  For a group
    without an entry, when missing routes are shown and the module
    [app.demo_adapter] cannot be imported, [create_adapter] raises
    [ModuleNotFoundError] for that module and the constructor fails: the
    flag does not make an unconfigured group harmless. *)
Theorem shown_group_needs_demo_adapter (environ : gmap string string)
    (mods : gmap string (gmap string PyObj)) (self : IriRouter)
    (router_adapter : PyObj) :
  environ !! env_var self = None ->
  show_missing_routes environ = true ->
  mods !! "app.demo_adapter" = None ->
  create_adapter environ mods self router_adapter
    = (self, Raise (ModuleNotFoundError "app.demo_adapter")) /\
  (forall kw, APIRouter_init kw = Return self ->
     IriRouter_init environ mods router_adapter kw
       = Raise (ModuleNotFoundError "app.demo_adapter")).
Proof.
  intros He Hs Hm.
  assert (Hc : create_adapter environ mods self router_adapter
               = (self, Raise (ModuleNotFoundError "app.demo_adapter"))).
  { rewrite (create_adapter_default _ _ _ _ He Hs).
    unfold load_adapter. cbn. unfold import_module. cbn. now rewrite Hm. }
  split; [exact Hc|].
  intros kw Hk. exact (IriRouter_init_raises _ _ _ _ _ _ _ Hk Hc).
Qed.

Lemma shown_group_needs_demo_adapter_witness :
  IriRouter_init Samples.env_show {[ "vendor.tools" := Samples.tools_module ]}
    (OClass Samples.FacilityAdapter) Samples.status_kwargs
    = Raise (ModuleNotFoundError "app.demo_adapter").
Proof.
  assert (He : Samples.env_show !! env_var Samples.status_router = None)
    by reflexivity.
  assert (Hs : show_missing_routes Samples.env_show = true) by reflexivity.
  assert (Hm : ({[ "vendor.tools" := Samples.tools_module ]}
                  : gmap string (gmap string PyObj)) !! "app.demo_adapter"
               = None) by reflexivity.
  apply (proj2 (shown_group_needs_demo_adapter _ _ Samples.status_router
                  (OClass Samples.FacilityAdapter) He Hs Hm)).
  reflexivity.
Defined.
